(** * AuraFinance: a shallow embedding of the client-side logic

    The development follows the TypeScript sources of the frontend:

    - [GoalService.calculateMonths]  (services/goalService.ts)
    - [GoalPlanner]: [runSimulation], [getScenarioMetrics]  (pages/GoalPlanner.tsx)
    - [useSSEStream]  (hooks/useSSEStream.ts)
    - [Portfolio]: [handleOptimize], [runMonteCarlo], [lineData]  (pages/Portfolio.tsx)
    - [Comparison]: [handleCompare]  (pages/Comparison.tsx)
    - [Backtest]: [handleBacktest], [handleClearCache], [MetricCard]
      (pages/Backtest.tsx)
    - the stores of the portfolio, of the comparison and of the watchlist
      (state/*.ts)

    Conventions of the embedding.

    - A JavaScript [number] is an exact rational ([Q]); rounding of IEEE
      doubles is not modelled.  Where the source can produce [NaN] the value
      is an [option] and [None] stands for [NaN].
    - A [Date] is its time value in milliseconds ([Z]); an invalid date has
      no time value ([None]).  The built-in parser [new Date(string)] and the
      clock [new Date()] are parameters.
    - An [await]ed call that may reject, and code that may throw, return an
      [outcome].
    - React state is an explicit record threaded through the handlers;
      observable effects (requests, alerts, callbacks) are collected in a
      trace. *)

From Stdlib Require Import ZArith QArith Qround Qpower Qminmax Qabs.
From Stdlib Require Import List Sorted String Ascii Bool Lia DecimalString.
Import ListNotations.

Open Scope string_scope.
Open Scope Q_scope.

(** ** Outcomes of fallible code *)

Inductive outcome (A : Type) : Type :=
| Returns (a : A)
| Throws (e : string).
Arguments Returns {A} a.
Arguments Throws {A} e.


(** ** types/goal.ts *)

Record GoalBase := mkGoalBase {
  name : string;
  target_amount : Q;
  target_date : string;          (* YYYY-MM-DD *)
  current_savings : Q;
  monthly_contribution : Q;
  risk_profile : option string
}.

Record YearlyProjection := mkYearlyProjection {
  year : Q;
  amount : Q;
  contribution : Q;
  growth : Q
}.

Record ScenarioProjections := mkScenarioProjections {
  median : list YearlyProjection;
  worst : list YearlyProjection;
  best : list YearlyProjection
}.

Record ETFDetail := mkETFDetail {
  ticker : string;
  etf_name : string;
  percent : Q;
  desc : string
}.

Record SimulationResult := mkSimulationResult {
  success_probability : Q;
  gap_amount : Q;
  projected_amount_at_deadline : Q;
  recommended_allocation : list (string * Q);
  etf_suggestions : list (string * ETFDetail);
  yearly_projections : list YearlyProjection;
  scenarios : ScenarioProjections;
  on_track : bool;
  suggestions : list (string * Q)
}.

(** The three values of the [scenarioView] state. *)
Inductive ScenarioView := ViewMedian | ViewBest | ViewWorst.

(** [simulation.scenarios[scenarioView]] *)
Definition scenario_of (s : ScenarioProjections) (v : ScenarioView)
  : list YearlyProjection :=
  match v with
  | ViewMedian => median s
  | ViewBest => best s
  | ViewWorst => worst s
  end.

(** ** Numeric helpers of the JavaScript runtime *)

(** [Math.max(a, b)] on finite numbers. *)
Definition Math_max (a b : Q) : Q := Qmax a b.

(** [Math.round(x)]: the integer nearest to [x], ties towards +infinity. *)
Definition Math_round (x : Q) : Z := Qfloor (x + (1 # 2)).

(** The sum of a list of numbers. *)
Fixpoint Qsum (l : list Q) : Q :=
  match l with
  | [] => 0
  | x :: r => x + Qsum r
  end.

(** [a <= b] as a JavaScript boolean. *)
Definition Qleb (a b : Q) : bool := Qle_bool a b.

(** [a > b] as a JavaScript boolean. *)
Definition Qgtb (a b : Q) : bool := negb (Qle_bool a b).

(** ** services/goalService.ts *)

Module GoalService.

Section Clock.

(** [new Date(s).getTime()]: [None] for an invalid date. *)
Variable Date_parse : string -> option Z.
(** [new Date().getTime()] at the time of the call. *)
Variable today : Z.

Definition MS_PER_DAY : Z := 1000 * 60 * 60 * 24.

(** The divisor [30.44]. *)
Definition DAYS_PER_MONTH : Q := 3044 # 100.

(** [calculateMonths]: [NaN] (here [None]) flows through [Math.abs],
    [Math.ceil], [Math.floor] and [Math.max] when the date is invalid. *)
Definition calculateMonths (targetDate : string) : option Z :=
  match Date_parse targetDate with
  | None => None
  | Some target =>
      let diffTime := Z.abs (target - today) in
      let diffDays := Qceiling (inject_Z diffTime / inject_Z MS_PER_DAY) in
      Some (Z.max 1 (Qfloor (inject_Z diffDays / DAYS_PER_MONTH)))
  end.

End Clock.

End GoalService.

(** ** pages/GoalPlanner.tsx *)

Module GoalPlanner.

(** The component state ([useState] cells). *)
Record State := mkState {
  goal : option GoalBase;
  simulation : option SimulationResult;
  loading : bool;
  simMonthly : Q;
  scenarioView : ScenarioView
}.

Definition initial : State :=
  {| goal := None; simulation := None; loading := false;
     simMonthly := 0; scenarioView := ViewMedian |}.

(** The object returned by [getScenarioMetrics].  The early return carries
    an [isGood] field and no [isScenarioGood]; the main return carries
    [isScenarioGood] and no [isGood].  An absent field is [None]. *)
Record Metrics := mkMetrics {
  probability : Z;
  gap : Q;
  metric_amount : Q;
  isGood : option bool;
  isScenarioGood : option bool;
  monthlyNeeded : Q
}.

Section Planner.

Variable Date_parse : string -> option Z.
Variable today : Z.
(** [GoalService.simulateGoal]: the POST to [/goals/simulate]. *)
Variable simulateGoal : GoalBase -> outcome SimulationResult.


(** The periodic rate [0.06 / 12]. *)
Definition topup_rate : Q := (6 # 100) / 12.

(** Lines 82-94: the monthly top-up for a given gap.  With [months = NaN]
    the power, [denom] and the test [denom > 0] are all [NaN]/false. *)
Definition monthlyTopUp (gap : Q) (months : option Z) : Q :=
  if Qgtb gap 0 then
    let r := topup_rate in
    match months with
    | None => 0
    | Some n =>
        let denom := ((1 + r) ^ n - 1) / r in
        if Qgtb denom 0 then gap / denom else 0
    end
  else 0.

(** [getScenarioMetrics].  Reading [.amount] of
    [projections[projections.length - 1]] throws a [TypeError] when the
    scenario has no projection. *)
Definition getScenarioMetrics (st : State) : outcome Metrics :=
  match simulation st, goal st with
  | Some sim, Some g =>
      let projections := scenario_of (scenarios sim) (scenarioView st) in
      match last (map Some projections) None with
      | None => Throws "TypeError"
      | Some final =>
          let finalAmount := amount final in
          let gap := Math_max 0 (target_amount g - finalAmount) in
          let monthlyNeeded :=
            monthlyTopUp gap
              (GoalService.calculateMonths Date_parse today (target_date g)) in
          let probability := Math_round (success_probability sim * 100) in
          let isScenarioGood := Qleb gap 0 in
          Returns {| probability := probability;
                     gap := gap;
                     metric_amount := finalAmount;
                     isGood := None;
                     isScenarioGood := Some isScenarioGood;
                     monthlyNeeded := monthlyNeeded |}
      end
  | _, _ =>
      Returns {| probability := 0; gap := 0; metric_amount := 0;
                 isGood := Some false; isScenarioGood := None;
                 monthlyNeeded := 0 |}
  end.

(** [onChange={(e) => setSimMonthly(parseFloat(e.target.value))}] *)
Definition setSimMonthly (st : State) (v : Q) : State :=
  {| goal := goal st; simulation := simulation st; loading := loading st;
     simMonthly := v; scenarioView := scenarioView st |}.

(** [onChange={(e) => setScenarioView(e.target.value)}] *)
Definition setScenarioView (st : State) (v : ScenarioView) : State :=
  {| goal := goal st; simulation := simulation st; loading := loading st;
     simMonthly := simMonthly st; scenarioView := v |}.

(** The "+ New Goal" button: [setGoal(null); setSimulation(null)]. *)
Definition newGoal (st : State) : State :=
  {| goal := None; simulation := None; loading := loading st;
     simMonthly := simMonthly st; scenarioView := scenarioView st |}.

(** The debounced [useEffect] on [simMonthly], at the moment its timer
    fires: the new state and the goal that was sent, if any.  The promise
    has no [catch]: a rejected request changes nothing. *)
Definition sliderEffect (st : State) : State * option GoalBase :=
  match goal st, simulation st with
  | Some g, Some _ =>
      if Qeq_bool (simMonthly st) (monthly_contribution g) then (st, None)
      else
        let sent :=
          {| name := name g; target_amount := target_amount g;
             target_date := target_date g;
             current_savings := current_savings g;
             monthly_contribution := simMonthly st;
             risk_profile := risk_profile g |} in
        match simulateGoal sent with
        | Returns res =>
            ({| goal := goal st; simulation := Some res;
                loading := loading st; simMonthly := simMonthly st;
                scenarioView := scenarioView st |}, Some sent)
        | Throws _ => (st, Some sent)
        end
  | _, _ => (st, None)
  end.

End Planner.

End GoalPlanner.

(** ** hooks/useSSEStream.ts *)

Module SSE.

(** The [type] field of a message.  The interface lists five values; the
    [switch] has no [default], so any other value ([TOther]) matches no
    case. *)
Inductive MessageType := TInfo | TLog | TComplete | TError | TProgress | TOther.

(** [s.split('\n')]: always at least one piece. *)
Fixpoint split_newline (s : string) : list string :=
  match s with
  | EmptyString => [EmptyString]
  | String c s' =>
      if Ascii.eqb c "010"%char then EmptyString :: split_newline s'
      else match split_newline s' with
           | [] => [String c EmptyString]
           | l :: ls => String c l :: ls
           end
  end.

(** [line.slice(n)] *)
Definition slice_from (n : nat) (s : string) : string :=
  substring n (String.length s - n) s.

(** [s || dflt] on strings: the empty string is falsy. *)
Definition or_default (s : option string) (dflt : string) : string :=
  match s with
  | Some (String c r) => String c r
  | _ => dflt
  end.

(** Errors that the [catch] of [stream] distinguishes. *)
Inductive JsError :=
| AbortError                    (* [err.name === 'AbortError'] *)
| ErrorWith (msg : string)      (* any other [Error], with its [message] *)
| NonError.                     (* a thrown value that is not an [Error] *)

Section Hook.

Set Implicit Arguments.

(** The payload type of [data] ([any] in the source). *)
Variable TResult : Type.

Record SSEMessage := mkSSEMessage {
  type : MessageType;
  message : option string;
  data : option TResult;
  progress : option Q
}.

(** [UseSSEStreamState]; [null] and [undefined] are both [None]. *)
Record HookState := mkHookState {
  logs : list string;
  isStreaming : bool;
  result : option TResult;
  error : option string;
  st_progress : option Q
}.

(** Calls of the optional callbacks and of [console.error], in order.  The
    callbacks are taken to return normally. *)
Inductive Effect :=
| CallOnProgress (p : Q)
| CallOnLog (m : string)
| CallOnComplete (d : option TResult)
| CallOnError (e : string)
| ConsoleError (line : string).

(** What [stream] carries besides the reader: the React state, the local
    [resultData] and the effects performed so far. *)
Record Run := mkRun {
  hook : HookState;
  resultData : option TResult;
  effects : list Effect
}.

(** [JSON.parse] typed as [SSEMessage]; [None] when it throws. *)
Variable JSON_parse : string -> option SSEMessage.

(** The streaming [TextDecoder]: a state machine fed one byte at a time,
    emitting the text that is complete so far. *)
Variable DecoderState : Type.
Variable decoder_step : DecoderState -> Byte.byte -> DecoderState * string.

Definition initialState : HookState :=
  {| logs := []; isStreaming := false; result := None; error := None;
     st_progress := None |}.

Definition set_hook (r : Run) (h : HookState) : Run :=
  {| hook := h; resultData := resultData r; effects := effects r |}.

Definition emit (r : Run) (e : Effect) : Run :=
  {| hook := hook r; resultData := resultData r;
     effects := effects r ++ [e] |}.

(** The two [if]s shared by the cases [log]/[info] and [progress]. *)
Definition onProgressField (r : Run) (m : SSEMessage) : Run :=
  match progress m with
  | Some p =>
      let h := hook r in
      emit (set_hook r {| logs := logs h; isStreaming := isStreaming h;
                          result := result h; error := error h;
                          st_progress := Some p |})
           (CallOnProgress p)
  | None => r
  end.

Definition onMessageField (r : Run) (m : SSEMessage) : Run :=
  match message m with
  | Some (String c s) =>
      let txt := String c s in
      let h := hook r in
      emit (set_hook r {| logs := logs h ++ [txt];
                          isStreaming := isStreaming h;
                          result := result h; error := error h;
                          st_progress := st_progress h |})
           (CallOnLog txt)
  | _ => r
  end.

(** The [switch (message.type)]. *)
Definition handleMessage (r : Run) (m : SSEMessage) : Run :=
  match type m with
  | TLog | TInfo | TProgress => onMessageField (onProgressField r m) m
  | TComplete =>
      let h := hook r in
      emit {| hook := {| logs := logs h ++ ["✅ Complete!"];
                         isStreaming := false;
                         result := data m;
                         error := error h;
                         st_progress := Some 100 |};
              resultData := data m;
              effects := effects r |}
           (CallOnComplete (data m))
  | TError =>
      let errorMsg := or_default (message m) "Unknown error" in
      let h := hook r in
      emit (set_hook r {| logs := logs h ++ ["❌ Error: " ++ errorMsg];
                          isStreaming := false;
                          result := result h;
                          error := Some errorMsg;
                          st_progress := st_progress h |})
           (CallOnError errorMsg)
  | TOther => r
  end.

(** The body of [for (const line of lines)]. *)
Definition processLine (r : Run) (line : string) : Run :=
  if prefix "data: " line then
    match JSON_parse (slice_from 6 line) with
    | Some m => handleMessage r m
    | None => emit r (ConsoleError (substring 0 200 line ++ "..."))
    end
  else r.

(** [decoder.decode(value, { stream: true })] *)
Fixpoint decode (d : DecoderState) (value : list Byte.byte)
  : DecoderState * string :=
  match value with
  | [] => (d, EmptyString)
  | b :: bs =>
      let (d1, s1) := decoder_step d b in
      let (d2, s2) := decode d1 bs in
      (d2, s1 ++ s2)
  end.

(** The reader side of the loop: the decoder and [messageBuffer]. *)
Record Reader := mkReader {
  decoder : DecoderState;
  messageBuffer : string
}.

(** One iteration of [while (true)] with [done = false]. *)
Definition readChunk (s : Reader * Run) (value : list Byte.byte)
  : Reader * Run :=
  let (rd, r) := s in
  let (d', chunk) := decode (decoder rd) value in
  let buffer := messageBuffer rd ++ chunk in
  let lines := split_newline buffer in
  let rest := last lines EmptyString in
  (* [lines.pop() || ''] *)
  ({| decoder := d'; messageBuffer := rest |},
   fold_left processLine (removelast lines) r).

Definition readChunks (s : Reader * Run) (values : list (list Byte.byte))
  : Reader * Run :=
  fold_left readChunk values s.

(** How the body of a response ends: [done], or [reader.read()] rejects. *)
Inductive StreamEnd := Done | ReadFails (err : JsError).

(** What [fetch] gives. *)
Inductive FetchResult :=
| FetchRejects (err : JsError)
| NotOk (status : N)
| NoBody
| Body (values : list (list Byte.byte)) (ending : StreamEnd).

(** The outer [catch]. *)
Definition catchError (r : Run) (err : JsError) : Run :=
  let h := hook r in
  match err with
  | AbortError =>
      set_hook r {| logs := logs h ++ ["⚠️ Cancelled"];
                    isStreaming := false;
                    result := result h; error := error h;
                    st_progress := st_progress h |}
  | _ =>
      let errorMsg := match err with
                      | ErrorWith msg => msg
                      | _ => "Connection failed"
                      end in
      emit (set_hook r {| logs := logs h ++ ["❌ " ++ errorMsg];
                          isStreaming := false;
                          result := result h;
                          error := Some errorMsg;
                          st_progress := st_progress h |})
           (CallOnError errorMsg)
  end.

(** The first [setState] of [stream]. *)
Definition startStream (autoReset : bool) (prev : HookState) : HookState :=
  if autoReset then
    {| logs := []; isStreaming := true; result := None; error := None;
       st_progress := None |}
  else
    {| logs := logs prev; isStreaming := true; result := result prev;
       error := None; st_progress := st_progress prev |}.

Definition status_text (status : N) : string :=
  NilEmpty.string_of_uint (N.to_uint status).

(** [stream]: the final run (state, effects) and the returned
    [resultData].  [d0] is the fresh [TextDecoder]. *)
Definition stream (autoReset : bool) (d0 : DecoderState)
    (prev : HookState) (response : FetchResult) : Run :=
  let r0 := {| hook := startStream autoReset prev;
               resultData := None; effects := [] |} in
  match response with
  | FetchRejects err => catchError r0 err
  | NotOk status =>
      catchError r0 (ErrorWith ("HTTP error! status: " ++ status_text status))
  | NoBody => catchError r0 (ErrorWith "No response body")
  | Body values ending =>
      let (_, r) :=
        readChunks ({| decoder := d0; messageBuffer := EmptyString |}, r0)
                   values in
      match ending with
      | Done => r
      | ReadFails err => catchError r err
      end
  end.

(** [reset] and [clearLogs]. *)
Definition reset (h : HookState) : HookState := initialState.

Definition clearLogs (h : HookState) : HookState :=
  {| logs := []; isStreaming := isStreaming h; result := result h;
     error := error h; st_progress := st_progress h |}.

(** The messages a list of lines carries, in order. *)
Definition message_of_line (line : string) : option SSEMessage :=
  if prefix "data: " line then JSON_parse (slice_from 6 line) else None.

Fixpoint events_of (lines : list string) : list SSEMessage :=
  match lines with
  | [] => []
  | l :: ls =>
      match message_of_line l with
      | Some m => m :: events_of ls
      | None => events_of ls
      end
  end.

(** The text decoded from a sequence of chunks, and its complete lines. *)
Definition decoded_text (d0 : DecoderState) (values : list (list Byte.byte))
  : string :=
  snd (decode d0 (List.concat values)).

Definition complete_lines (text : string) : list string :=
  removelast (split_newline text).

Definition is_complete (m : SSEMessage) : bool :=
  match type m with TComplete => true | _ => false end.

Definition is_error (m : SSEMessage) : bool :=
  match type m with TError => true | _ => false end.

Definition is_call_complete (e : Effect) : bool :=
  match e with CallOnComplete _ => true | _ => false end.

Definition is_call_error (e : Effect) : bool :=
  match e with CallOnError _ => true | _ => false end.

Definition is_console (e : Effect) : bool :=
  match e with ConsoleError _ => true | _ => false end.

(** [handleMessage] seen as a reducer: what a message does to the React
    state, and which callbacks it fires.  [handleMessage_reducer] below
    shows that this is the same function. *)
Definition message_hook (h : HookState) (m : SSEMessage) : HookState :=
  match type m with
  | TLog | TInfo | TProgress =>
      {| logs := logs h ++ match message m with
                           | Some (String c s) => [String c s]
                           | _ => []
                           end;
         isStreaming := isStreaming h;
         result := result h;
         error := error h;
         st_progress := match progress m with
                        | Some p => Some p
                        | None => st_progress h
                        end |}
  | TComplete =>
      {| logs := logs h ++ ["✅ Complete!"]; isStreaming := false;
         result := data m; error := error h; st_progress := Some 100 |}
  | TError =>
      {| logs := logs h
                 ++ ["❌ Error: " ++ or_default (message m) "Unknown error"];
         isStreaming := false; result := result h;
         error := Some (or_default (message m) "Unknown error");
         st_progress := st_progress h |}
  | TOther => h
  end.

Definition message_effects (m : SSEMessage) : list Effect :=
  match type m with
  | TLog | TInfo | TProgress =>
      match progress m with Some p => [CallOnProgress p] | None => [] end
      ++ match message m with
         | Some (String c s) => [CallOnLog (String c s)]
         | _ => []
         end
  | TComplete => [CallOnComplete (data m)]
  | TError => [CallOnError (or_default (message m) "Unknown error")]
  | TOther => []
  end.

(** Modelled from the spec: the emitter of the streaming endpoints is not
    among the sources.  The events of a run "terminat[e] in exactly one
    complete (with final payload) or one error": the last event [m] is a
    complete or an error event and no earlier event is either. *)
Definition terminates_in (evs : list SSEMessage) (m : SSEMessage) : Prop :=
  exists pre : list SSEMessage,
    evs = (pre ++ [m])%list
    /\ existsb is_complete pre = false
    /\ existsb is_error pre = false
    /\ (is_complete m || is_error m = true)%bool.

(** A predicate on effects that ignores [console.error]. *)
Definition quiet (f : Effect -> bool) : Prop :=
  forall line, f (ConsoleError line) = false.

(** The [resultData] variable after one more message. *)
Definition message_result (d : option TResult) (m : SSEMessage)
  : option TResult :=
  if is_complete m then data m else d.

(** The buffer holds no newline: true of every state the loop reaches. *)
Definition buffer_clean (s : Reader * Run) : Prop :=
  split_newline (messageBuffer (fst s)) = [messageBuffer (fst s)].

Unset Implicit Arguments.

End Hook.

End SSE.

(** ** pages/Portfolio.tsx and state/portfolioStore.ts *)

Module Portfolio.

Record PortfolioConfig := mkPortfolioConfig {
  weights : list (string * Q);        (* ticker -> weight, in key order *)
  selected_assets : list string
}.

(** [{ time_points, paths, percentile_paths }]; the two optional members
    are tested with [if] before use.  The entries of [percentile_paths] are
    in the order in which [Object.entries] enumerates them. *)
Record MCData := mkMCData {
  time_points : list Q;
  paths : option (list (list Q));
  percentile_paths : option (list (string * list Q))
}.

Record OptimizeRequest := mkOptimizeRequest {
  opt_risk_tolerance : option Q;      (* [risk[0]], absent for an empty array *)
  opt_investment_amount : Q;
  opt_investment_horizon : Q;
  opt_num_assets : Q
}.

Record MonteCarloRequest := mkMonteCarloRequest {
  mc_weights : list (string * Q);
  mc_investment_amount : Q;
  mc_investment_horizon : Q;
  mc_tickers : list string
}.

(** [generateColors]'s palette. *)
Definition palette : list string :=
  [ "#6366F1"; "#10B981"; "#F59E0B"; "#EF4444"; "#3B82F6"; "#8B5CF6";
    "#EC4899"; "#F97316"; "#22D3EE"; "#A3E635"; "#F43F5E"; "#EAB308";
    "#14B8A6"; "#7C3AED"; "#D946EF"; "#4ADE80"; "#FACC15" ].

(** [Array.from({ length: count }, (_, i) => palette[i % palette.length])] *)
Definition generateColors (count : nat) : list string :=
  map (fun i => nth (i mod List.length palette) palette "") (seq 0 count).

Section Page.

Set Implicit Arguments.

(** The members of the optimize response that the page only stores and
    renders ([any] in the source). *)
Variable Details : Type.
Variable TableRow : Type.
Variable Sentiment : Type.

(** [response.data.results]; reading [portfolio_config] of it, or a member
    of an absent [portfolio_config], throws. *)
Record Results := mkResults {
  portfolio_config : option PortfolioConfig;
  details : Details
}.

Record OptimizeResponse := mkOptimizeResponse {
  results : option Results;
  table_data : option (list TableRow);
  resp_beta : option Q;
  resp_sentiment : option Sentiment
}.

(** The persisted store plus the two local [useState] flags. *)
Record State := mkState {
  risk : list Q;
  amount : Q;
  horizon : Q;
  assets : Q;
  result : option Results;
  tableData : option (list TableRow);
  beta : option Q;
  mcData : option MCData;
  sentiment : option Sentiment;
  loading : bool;
  mcLoading : bool
}.

Inductive Effect :=
| PostOptimize (req : OptimizeRequest)
| PostMonteCarlo (req : MonteCarloRequest)
| ConsoleLog (m : string)
| ConsoleError (m : string)
| Alert (m : string).

Variable post_optimize : OptimizeRequest -> outcome OptimizeResponse.
Variable post_monte_carlo : MonteCarloRequest -> outcome MCData.

Definition set_mc (st : State) (mc : option MCData) (busy : bool) : State :=
  {| risk := risk st; amount := amount st; horizon := horizon st;
     assets := assets st; result := result st; tableData := tableData st;
     beta := beta st; mcData := mc; sentiment := sentiment st;
     loading := loading st; mcLoading := busy |}.

Definition set_loading (st : State) (b : bool) : State :=
  {| risk := risk st; amount := amount st; horizon := horizon st;
     assets := assets st; result := result st; tableData := tableData st;
     beta := beta st; mcData := mcData st; sentiment := sentiment st;
     loading := b; mcLoading := mcLoading st |}.

(** [runMonteCarlo]; [amount] and [horizon] are those of the render in
    which the handler was created, passed here as [amount0], [horizon0]. *)
Definition runMonteCarlo (amount0 horizon0 : Q) (st : State)
    (weights : list (string * Q)) (tickers : list string)
  : State * list Effect :=
  let req := {| mc_weights := weights;
                mc_investment_amount := amount0;
                mc_investment_horizon := horizon0;
                mc_tickers := tickers |} in
  let pre := [ConsoleLog "Running Monte Carlo..."; PostMonteCarlo req] in
  match post_monte_carlo req with
  | Returns d =>
      (set_mc st (Some d) false,
       (pre ++ [ConsoleLog "Completed Monto Carlo"])%list)
  | Throws _ =>
      (set_mc st (mcData st) false,
       (pre ++ [ConsoleError "MC Analysis failed:"])%list)
  end.

(** [handleOptimize] *)
Definition handleOptimize (st : State) : State * list Effect :=
  let amount0 := amount st in
  let horizon0 := horizon st in
  (* setLoading(true); setResults({ mcData: null, sentiment: null }) *)
  let st1 :=
    {| risk := risk st; amount := amount st; horizon := horizon st;
       assets := assets st; result := result st; tableData := tableData st;
       beta := beta st; mcData := None; sentiment := None;
       loading := true; mcLoading := mcLoading st |} in
  let req := {| opt_risk_tolerance := nth_error (risk st) 0;
                opt_investment_amount := amount0;
                opt_investment_horizon := horizon0;
                opt_num_assets := assets st |} in
  let pre := [ConsoleLog "Optimizing..."; PostOptimize req] in
  let failed := [ConsoleError "Optimization failed:";
                 Alert "Optimization failed. Please check backend."] in
  match post_optimize req with
  | Throws _ => (set_loading st1 false, (pre ++ failed)%list)
  | Returns resp =>
      let st2 :=
        {| risk := risk st1; amount := amount st1; horizon := horizon st1;
           assets := assets st1; result := results resp;
           tableData := table_data resp; beta := resp_beta resp;
           mcData := mcData st1; sentiment := resp_sentiment resp;
           loading := loading st1; mcLoading := mcLoading st1 |} in
      let pre2 := (pre ++ [ConsoleLog "Optimization completed"])%list in
      match results resp with
      | Some {| portfolio_config := Some cfg |} =>
          let (st3, eff) :=
            runMonteCarlo amount0 horizon0 st2
                          (weights cfg) (selected_assets cfg) in
          (set_loading st3 false, (pre2 ++ eff)%list)
      | _ => (set_loading st2 false, (pre2 ++ failed)%list)
      end
  end.

(** The store's default state, with the page's two flags. *)
Definition defaultState : State :=
  {| risk := [1 # 2]; amount := 10000; horizon := 10; assets := 5;
     result := None; tableData := Some []; beta := None; mcData := None;
     sentiment := None; loading := false; mcLoading := false |}.

(** [setInputs({ amount: Number(e.target.value) })] and its siblings. *)
Definition setAmount (st : State) (v : Q) : State :=
  {| risk := risk st; amount := v; horizon := horizon st;
     assets := assets st; result := result st; tableData := tableData st;
     beta := beta st; mcData := mcData st; sentiment := sentiment st;
     loading := loading st; mcLoading := mcLoading st |}.

Definition is_alert (e : Effect) : bool :=
  match e with Alert _ => true | _ => false end.

(** The effects that are requests to the API. *)
Definition is_request (e : Effect) : bool :=
  match e with
  | PostOptimize _ | PostMonteCarlo _ => true
  | _ => false
  end.

(** The store's [reset]: the results go, the inputs stay. *)
Definition reset (st : State) : State :=
  {| risk := risk st; amount := amount st; horizon := horizon st;
     assets := assets st; result := None; tableData := Some [];
     beta := None; mcData := None; sentiment := None;
     loading := loading st; mcLoading := mcLoading st |}.

(** A chart dataset, with the members that vary between datasets
    ([fill: false] and [pointRadius: 0] are the same in all).  An entry of
    [data] may be [undefined] ([None]). *)
Record Dataset := mkDataset {
  label : string;
  ds_data : list (option Q);
  borderColor : string;
  borderWidth : Q;
  borderDash : option (list Q)
}.

Definition percentileColors : list (string * string) :=
  [ ("5", "#F87171"); ("25", "#FBBF24"); ("50", "#34D399");
    ("75", "#60A5FA"); ("95", "#FACC15") ].

(** [obj[key]] on a string-keyed object. *)
Fixpoint lookup {V : Type} (key : string) (obj : list (string * V))
  : option V :=
  match obj with
  | [] => None
  | (k, v) :: rest => if String.eqb k key then Some v else lookup key rest
  end.

Definition sampleDataset (path : list Q) : Dataset :=
  {| label := "Simulation"; ds_data := map Some path;
     borderColor := "rgba(99,102,241,0.1)"; borderWidth := 1;
     borderDash := None |}.

Definition percentileDataset (entry : string * list Q) : Dataset :=
  let (p, path) := entry in
  {| label := p ++ "th Percentile"; ds_data := map Some path;
     borderColor := match lookup p percentileColors with
                    | Some c => c
                    | None => "#D1D5DB"
                    end;
     borderWidth := if String.eqb p "50" then 3 else 2;
     borderDash := None |}.

(** [percentile_paths['50'][0]] when there is a median band, else
    [amount]; an empty band gives [undefined] ([None]). *)
Definition initialInv (mc : MCData) (amount0 : Q) : option Q :=
  match percentile_paths mc with
  | Some pp =>
      match lookup "50" pp with
      | Some band => nth_error band 0
      | None => Some amount0
      end
  | None => Some amount0
  end.

Definition initialDataset (mc : MCData) (amount0 : Q) : Dataset :=
  {| label := "Initial Investment";
     ds_data := repeat (initialInv mc amount0)
                       (List.length (time_points mc));
     borderColor := "#9CA3AF"; borderWidth := 2;
     borderDash := Some [5; 5] |}.

(** [lineData]: [{ labels, datasets }], or [null]. *)
Definition lineData (st : State) : option (list Q * list Dataset) :=
  match mcData st with
  | Some mc =>
      let samples := match paths mc with
                     | Some ps => map sampleDataset ps
                     | None => []
                     end in
      let bands := match percentile_paths mc with
                   | Some pp => map percentileDataset pp
                   | None => []
                   end in
      Some (time_points mc,
            (samples ++ bands ++ [initialDataset mc (amount st)])%list)
  | None => None
  end.

(** [pieData]: labels and percentages. *)
Definition pieData (st : State) : option (list string * list Q * list string) :=
  match result st with
  | Some {| portfolio_config := Some cfg |} =>
      let labels := map fst (weights cfg) in
      Some (labels, map (fun kv => snd kv * 100) (weights cfg),
            generateColors (List.length labels))
  | _ => None
  end.

Unset Implicit Arguments.

End Page.

End Portfolio.

(** ** pages/Comparison.tsx and state/comparisonStore.ts *)

Module Comparison.

Inductive LoadingStep := Idle | Quantum | Classical | Complete.

Record CompareRequest := mkCompareRequest {
  risk_tolerance : Q;
  investment_amount : Q;
  investment_horizon : Q;
  num_assets : Q
}.

Section Page.

Set Implicit Arguments.

(** The compare response ([ComparisonResponse]). *)
Variable ComparisonResponse : Type.

(** The store's inputs and result. *)
Record Store := mkStore {
  storedRisk : Q;
  storedAmount : Q;
  storedHorizon : Q;
  storedAssets : Q;
  comparison : option ComparisonResponse
}.

Record State := mkState {
  store : Store;
  riskTolerance : Q;
  investmentAmount : Q;
  timeHorizon : Q;
  numAssets : Q;
  loadingStep : LoadingStep
}.

Definition defaultStore : Store :=
  {| storedRisk := 50; storedAmount := 10000; storedHorizon := 5;
     storedAssets := 4; comparison := None |}.

(** The first render: the local inputs start from the stored ones. *)
Definition mount (s : Store) : State :=
  {| store := s; riskTolerance := storedRisk s;
     investmentAmount := storedAmount s; timeHorizon := storedHorizon s;
     numAssets := storedAssets s; loadingStep := Idle |}.

(** The slider of the risk tolerance: [min] is the default 0 of a range
    input and [max = 100]; the browser hands [handleChange] a value of
    that range. *)
Definition slider_value (v : Q) : Prop := 0 <= v /\ v <= 100.

(** [onValueChange={(val) => setRiskTolerance(val[0])}] *)
Definition setRiskTolerance (st : State) (v : Q) : State :=
  {| store := store st; riskTolerance := v;
     investmentAmount := investmentAmount st; timeHorizon := timeHorizon st;
     numAssets := numAssets st; loadingStep := loadingStep st |}.

Variable post_compare : CompareRequest -> outcome ComparisonResponse.

(** The body of the request of [handleCompare]. *)
Definition compareRequest (st : State) : CompareRequest :=
  {| risk_tolerance := riskTolerance st / 100;
     investment_amount := investmentAmount st;
     investment_horizon := timeHorizon st;
     num_assets := numAssets st |}.

(** [handleCompare]: the final state and the request sent. *)
Definition handleCompare (st : State) : State * CompareRequest :=
  let saved :=
    {| storedRisk := riskTolerance st; storedAmount := investmentAmount st;
       storedHorizon := timeHorizon st; storedAssets := numAssets st;
       comparison := comparison (store st) |} in
  let req := compareRequest st in
  match post_compare req with
  | Returns d =>
      ({| store := {| storedRisk := storedRisk saved;
                      storedAmount := storedAmount saved;
                      storedHorizon := storedHorizon saved;
                      storedAssets := storedAssets saved;
                      comparison := Some d |};
          riskTolerance := riskTolerance st;
          investmentAmount := investmentAmount st;
          timeHorizon := timeHorizon st;
          numAssets := numAssets st;
          loadingStep := Complete |}, req)
  | Throws _ =>
      ({| store := saved;
          riskTolerance := riskTolerance st;
          investmentAmount := investmentAmount st;
          timeHorizon := timeHorizon st;
          numAssets := numAssets st;
          loadingStep := Idle |}, req)
  end.

Unset Implicit Arguments.

End Page.

(** Modelled from the spec: the optimizer's tolerance check, which is not
    among the sources: it fails with [InvalidToleranceError] if tolerance is
    outside [0,1]. *)
Definition rejects_tolerance (t : Q) : bool :=
  negb (Qle_bool 0 t && Qle_bool t 1).

End Comparison.

(** ** pages/Backtest.tsx *)

Module Backtest.

Record PortfolioData := mkPortfolioData {
  weights : list (string * Q);
  tickers : list string;
  investmentAmount : Q
}.

Record Period := mkPeriod {
  startDate : string;
  endDate : string
}.

Record BacktestRequest := mkBacktestRequest {
  req_weights : list (string * Q);
  req_tickers : list string;
  start_date : string;
  end_date : string;
  initial_investment : Q
}.

Inductive Effect :=
| PostBacktest (req : BacktestRequest)
| DeleteRequest (url : string)
| ConsoleError (m : string)
| Alert (m : string).

Section Page.

Set Implicit Arguments.

(** The backtest response ([any] in the source). *)
Variable BacktestData : Type.

Record State := mkState {
  backtestData : option BacktestData;
  loading : bool;
  clearingCache : bool;
  backtestPeriod : Period;
  portfolioData : PortfolioData       (* [location.state] *)
}.

Definition initial (pd : PortfolioData) : State :=
  {| backtestData := None; loading := false; clearingCache := false;
     backtestPeriod := {| startDate := "2022-01-01";
                          endDate := "2022-12-31" |};
     portfolioData := pd |}.

Variable post_backtest : BacktestRequest -> outcome BacktestData.
(** [apiClient.delete(url)] *)
Variable api_delete : string -> outcome unit.

(** [handleBacktest] *)
Definition handleBacktest (st : State) : State * list Effect :=
  let pd := portfolioData st in
  let req := {| req_weights := weights pd;
                req_tickers := tickers pd;
                start_date := startDate (backtestPeriod st);
                end_date := endDate (backtestPeriod st);
                initial_investment := investmentAmount pd |} in
  match post_backtest req with
  | Returns d =>
      ({| backtestData := Some d; loading := false;
          clearingCache := clearingCache st;
          backtestPeriod := backtestPeriod st;
          portfolioData := portfolioData st |},
       [PostBacktest req])
  | Throws _ =>
      ({| backtestData := backtestData st; loading := false;
          clearingCache := clearingCache st;
          backtestPeriod := backtestPeriod st;
          portfolioData := portfolioData st |},
       [PostBacktest req; ConsoleError "Backtest failed:";
        Alert "Backtesting failed. Please try a different date range."])
  end.

Definition is_request (e : Effect) : bool :=
  match e with
  | PostBacktest _ | DeleteRequest _ => true
  | _ => false
  end.

(** [handleClearCache] *)
Definition handleClearCache (st : State) : State * list Effect :=
  let url := "/quantum/backtest/cache" in
  match api_delete url with
  | Returns _ =>
      ({| backtestData := None; loading := loading st;
          clearingCache := false;
          backtestPeriod := backtestPeriod st;
          portfolioData := portfolioData st |},
       [DeleteRequest url;
        Alert "✅ Cache cleared successfully! Run a new backtest to fetch fresh data."])
  | Throws _ =>
      ({| backtestData := backtestData st; loading := loading st;
          clearingCache := false;
          backtestPeriod := backtestPeriod st;
          portfolioData := portfolioData st |},
       [DeleteRequest url; ConsoleError "Failed to clear cache:";
        Alert "❌ Failed to clear cache. Please try again."])
  end.

Unset Implicit Arguments.

End Page.

(** [MetricCard]: which way the arrow points. *)
Definition isOptimizedBetter (higherIsBetter : bool) (optimized baseline : Q)
  : bool :=
  if higherIsBetter then Qgtb optimized baseline
  else Qgtb baseline optimized.

(** [MetricCard]: [Math.abs(((optimized - baseline) / Math.abs(baseline)) *
    100)]; with a zero baseline the quotient is infinite or [NaN] ([None]). *)
Definition difference (optimized baseline : Q) : option Q :=
  if Qeq_bool baseline 0 then None
  else Some (Qabs ((optimized - baseline) / Qabs baseline * 100)).

End Backtest.

(** ** state/watchlistStore.ts *)

Module Watchlist.

(** A [Set<string>]: its members in insertion order, each once. *)
Definition set_has (t : string) (s : list string) : bool :=
  existsb (String.eqb t) s.

Definition set_add (t : string) (s : list string) : list string :=
  if set_has t s then s else (s ++ [t])%list.

Definition set_delete (t : string) (s : list string) : list string :=
  filter (fun x => negb (String.eqb t x)) s.

(** [new Set(items)] *)
Definition set_of (items : list string) : list string :=
  fold_left (fun s t => set_add t s) items [].

Record State := mkState {
  watchlistSet : list string;
  loading : bool;
  error : option string
}.

Definition initial : State :=
  {| watchlistSet := []; loading := false; error := None |}.

Section Store.

(** [apiClient.get('/watchlist/')]: the tickers of the items returned. *)
Variable api_get : outcome (list string).
(** [apiClient.post('/watchlist/', { ticker, company_name })] *)
Variable api_post : string -> string -> outcome unit.
(** [apiClient.delete(`/watchlist/${ticker}`)] *)
Variable api_delete : string -> outcome unit.

Definition fetchWatchlist (st : State) : State :=
  match api_get with
  | Returns tickers =>
      {| watchlistSet := set_of tickers; loading := false; error := None |}
  | Throws _ =>
      {| watchlistSet := watchlistSet st; loading := false;
         error := Some "Failed to fetch watchlist" |}
  end.

(** [addToWatchlist]: the new state, and whether the call rethrows. *)
Definition addToWatchlist (st : State) (ticker : string)
    (company_name : option string) : State * outcome unit :=
  let optimistic := set_add ticker (watchlistSet st) in
  match api_post ticker (SSE.or_default company_name ticker) with
  | Returns _ =>
      ({| watchlistSet := optimistic; loading := loading st;
          error := error st |}, Returns tt)
  | Throws e =>
      ({| watchlistSet := set_delete ticker optimistic;
          loading := loading st;
          error := Some "Failed to add to watchlist" |}, Throws e)
  end.

Definition removeFromWatchlist (st : State) (ticker : string)
  : State * outcome unit :=
  let optimistic := set_delete ticker (watchlistSet st) in
  match api_delete ("/watchlist/" ++ ticker) with
  | Returns _ =>
      ({| watchlistSet := optimistic; loading := loading st;
          error := error st |}, Returns tt)
  | Throws e =>
      ({| watchlistSet := set_add ticker optimistic;
          loading := loading st;
          error := Some "Failed to remove from watchlist" |}, Throws e)
  end.

Definition isInWatchlist (st : State) (ticker : string) : bool :=
  set_has ticker (watchlistSet st).

End Store.

End Watchlist.

(** ** The Monte Carlo service's percentile bands *)

Module MonteCarlo.

(** Insertion into an ascending list. *)
Fixpoint insert_sorted (x : Q) (l : list Q) : list Q :=
  match l with
  | [] => [x]
  | y :: l' => if Qle_bool x y then x :: l else y :: insert_sorted x l'
  end.

Definition sort_values (l : list Q) : list Q :=
  fold_right insert_sorted [] l.

(** The values of the ensemble at one time index. *)
Definition values_at (paths : list (list Q)) (t : nat) : list Q :=
  map (fun path => nth t path 0) paths.

(** Modelled from the spec: the monte_carlo service is not among the
    sources.  A percentile band is "the value attained at a given percentile
    across a simulated path ensemble, per time step", "derived by
    aggregating SimulationPaths at each time index": the ensemble's values at
    the index are ranked and the value at rank [p]% is taken. *)
Definition percentile (p : nat) (values : list Q) : Q :=
  nth (p * (List.length values - 1) / 100) (sort_values values) 0.

(** Modelled from the spec: one band, aligned to the shared time axis. *)
Definition band (p : nat) (paths : list (list Q)) (steps : nat) : list Q :=
  map (fun t => percentile p (values_at paths t)) (seq 0 steps).

(** Modelled from the spec: [percentile_paths] of the monte_carlo response,
    keyed "5", "25", "50", "75", "95". *)
Definition percentile_paths (paths : list (list Q)) (steps : nat)
  : list (string * list Q) :=
  [ ("5", band 5 paths steps); ("25", band 25 paths steps);
    ("50", band 50 paths steps); ("75", band 75 paths steps);
    ("95", band 95 paths steps) ].

(** The value of the band keyed [key] at time index [t]. *)
Definition band_value (pp : list (string * list Q)) (key : string) (t : nat)
  : option Q :=
  match Portfolio.lookup key pp with
  | Some b => nth_error b t
  | None => None
  end.

End MonteCarlo.

(** * Concrete inputs used by the examples *)

Module Examples.

(** A parser that knows two dates (their UTC midnights). *)
Definition dates (s : string) : option Z :=
  if String.eqb s "2030-01-01" then Some 1893456000000%Z
  else if String.eqb s "2020-01-01" then Some 1577836800000%Z
  else None.

(** 2025-01-01T00:00:00Z *)
Definition today : Z := 1735689600000%Z.


Definition house (date : string) : GoalBase :=
  {| name := "House"; target_amount := 50000; target_date := date;
     current_savings := 5000; monthly_contribution := 500;
     risk_profile := Some "Moderate" |}.

Definition projection (y a : Q) : YearlyProjection :=
  {| year := y; amount := a; contribution := 0; growth := 0 |}.

Definition sim : SimulationResult :=
  {| success_probability := 62 # 100;
     gap_amount := 8000;
     projected_amount_at_deadline := 48000;
     recommended_allocation := [("Equity", 6 # 10); ("Bonds", 4 # 10)];
     etf_suggestions := [];
     yearly_projections := [projection 1 12000; projection 2 48000];
     scenarios := {| median := [projection 1 12000; projection 2 48000];
                     worst := [projection 1 10000; projection 2 40000];
                     best := [projection 1 14000; projection 2 60000] |};
     on_track := false;
     suggestions := [] |}.

Definition planner (date : string) (v : ScenarioView) : GoalPlanner.State :=
  {| GoalPlanner.goal := Some (house date);
     GoalPlanner.simulation := Some sim;
     GoalPlanner.loading := false;
     GoalPlanner.simMonthly := 500;
     GoalPlanner.scenarioView := v |}.

(** A decoder for one-byte characters: every byte is a character. *)
Definition latin1_step (d : unit) (b : Byte.byte) : unit * string :=
  (d, String (ascii_of_byte b) EmptyString).

Definition dq : string := String "034"%char EmptyString.

(** The JSON texts of three messages. *)
Definition json_progress : string :=
  "{" ++ dq ++ "type" ++ dq ++ ":" ++ dq ++ "progress" ++ dq ++ ","
      ++ dq ++ "progress" ++ dq ++ ":40}".

Definition json_complete : string :=
  "{" ++ dq ++ "type" ++ dq ++ ":" ++ dq ++ "complete" ++ dq ++ ","
      ++ dq ++ "data" ++ dq ++ ":7}".

Definition json_error : string :=
  "{" ++ dq ++ "type" ++ dq ++ ":" ++ dq ++ "error" ++ dq ++ "}".

(** A parser that knows these three texts. *)
Definition parse (s : string) : option (SSE.SSEMessage Z) :=
  if String.eqb s json_progress then
    Some (SSE.mkSSEMessage SSE.TProgress None None (Some 40))
  else if String.eqb s json_complete then
    Some (SSE.mkSSEMessage SSE.TComplete None (Some 7%Z) None)
  else if String.eqb s json_error then
    Some (SSE.mkSSEMessage SSE.TError None None None)
  else None.

(** A response body: a progress event and a complete event. *)
Definition body : string :=
  "data: " ++ json_progress ++ String "010"%char EmptyString
  ++ String "010"%char EmptyString
  ++ "data: " ++ json_complete ++ String "010"%char EmptyString
  ++ String "010"%char EmptyString.

(** The same body delivered whole, and cut in the middle of an event. *)
Definition whole : list (list Byte.byte) := [list_byte_of_string body].

Definition cut : list (list Byte.byte) :=
  [firstn 20 (list_byte_of_string body); [];
   skipn 20 (list_byte_of_string body)].

(** A complete event whose line is not terminated. *)
Definition unterminated : list (list Byte.byte) :=
  [list_byte_of_string ("data: " ++ json_complete)].

(** A body with a progress event only. *)
Definition progress_only : list (list Byte.byte) :=
  [list_byte_of_string
     ("data: " ++ json_progress ++ String "010"%char EmptyString)].

(** An optimize response with a two-asset configuration. *)
Definition config : Portfolio.PortfolioConfig :=
  {| Portfolio.weights := [("AAPL", 6 # 10); ("MSFT", 4 # 10)];
     Portfolio.selected_assets := ["AAPL"; "MSFT"] |}.

Definition optimized : Portfolio.OptimizeResponse unit unit unit :=
  {| Portfolio.results :=
       Some {| Portfolio.portfolio_config := Some config;
               Portfolio.details := tt |};
     Portfolio.table_data := Some [tt; tt];
     Portfolio.resp_beta := Some (11 # 10);
     Portfolio.resp_sentiment := Some tt |}.

(** A response whose results lack the configuration. *)
Definition malformed : Portfolio.OptimizeResponse unit unit unit :=
  {| Portfolio.results :=
       Some {| Portfolio.portfolio_config := None; Portfolio.details := tt |};
     Portfolio.table_data := None;
     Portfolio.resp_beta := None;
     Portfolio.resp_sentiment := None |}.

Definition mc : Portfolio.MCData :=
  {| Portfolio.time_points := [0; 1; 2];
     Portfolio.paths := Some [[10000; 10400; 11000]; [10000; 9700; 9900]];
     Portfolio.percentile_paths :=
       Some [("5", [10000; 9700; 9900]); ("50", [10000; 10050; 10450]);
             ("95", [10000; 10400; 11000])] |}.

(** A page that already shows a portfolio and its simulation. *)
Definition showing : Portfolio.State unit unit unit :=
  {| Portfolio.risk := [1 # 2]; Portfolio.amount := 10000;
     Portfolio.horizon := 10; Portfolio.assets := 5;
     Portfolio.result := Portfolio.results optimized;
     Portfolio.tableData := Some [tt; tt];
     Portfolio.beta := Some (11 # 10);
     Portfolio.mcData := Some mc;
     Portfolio.sentiment := Some tt;
     Portfolio.loading := false; Portfolio.mcLoading := false |}.

End Examples.

(** * Properties *)

(** ** Arithmetic helpers *)

Lemma Qgtb_true (a b : Q) : Qgtb a b = true <-> b < a.
Proof.
  unfold Qgtb. rewrite negb_true_iff.
  split; intro H.
  - apply Qnot_le_lt. intro Hle. apply Qle_bool_iff in Hle. congruence.
  - destruct (Qle_bool a b) eqn:E; [|reflexivity].
    apply Qle_bool_iff in E. exfalso. exact (Qlt_not_le _ _ H E).
Qed.

Lemma Qgtb_false (a b : Q) : Qgtb a b = false <-> a <= b.
Proof.
  unfold Qgtb. rewrite negb_false_iff. apply Qle_bool_iff.
Qed.

Lemma Qpower_nat_gt_1 (q : Q) (k : nat) :
  1 < q -> 1 < q ^ Z.of_nat (S k).
Proof.
  intro Hq.
  assert (Hq0 : ~ q == 0).
  { intro E. rewrite E in Hq. discriminate Hq. }
  induction k as [|k IH].
  - change (Z.of_nat 1) with 1%Z. rewrite Qpower_1_r. exact Hq.
  - replace (Z.of_nat (S (S k))) with (Z.of_nat (S k) + 1)%Z by lia.
    rewrite Qpower_plus by exact Hq0.
    rewrite Qpower_1_r.
    apply Qlt_trans with (1 * q).
    + rewrite Qmult_1_l. exact Hq.
    + apply Qmult_lt_compat_r; [|exact IH].
      apply Qlt_trans with 1; [reflexivity | exact Hq].
Qed.

Lemma Qpower_gt_1 (q : Q) (n : Z) : 1 < q -> (1 <= n)%Z -> 1 < q ^ n.
Proof.
  intros Hq Hn.
  replace n with (Z.of_nat (S (Z.to_nat (n - 1)))) by lia.
  apply Qpower_nat_gt_1. exact Hq.
Qed.

Lemma topup_rate_value : GoalPlanner.topup_rate == 1 # 200.
Proof. reflexivity. Qed.

Lemma topup_rate_pos : 0 < GoalPlanner.topup_rate.
Proof. reflexivity. Qed.

Lemma topup_growth_pos (n : Z) :
  (1 <= n)%Z -> 0 < (1 + GoalPlanner.topup_rate) ^ n - 1.
Proof.
  intro Hn.
  assert (H : 1 < (1 + GoalPlanner.topup_rate) ^ n).
  { apply Qpower_gt_1; [reflexivity | exact Hn]. }
  apply Qlt_minus_iff in H. exact H.
Qed.

Lemma monthlyTopUp_formula (gap : Q) (n : Z) :
  0 < gap -> (1 <= n)%Z ->
  GoalPlanner.monthlyTopUp gap (Some n)
  == gap * GoalPlanner.topup_rate / ((1 + GoalPlanner.topup_rate) ^ n - 1).
Proof.
  intros Hgap Hn.
  pose proof (topup_growth_pos n Hn) as Hpos.
  pose proof topup_rate_pos as Hr.
  set (r := GoalPlanner.topup_rate) in *.
  set (g := (1 + r) ^ n - 1) in *.
  assert (Hg0 : ~ g == 0).
  { intro E. rewrite E in Hpos. discriminate Hpos. }
  assert (Hr0 : ~ r == 0).
  { intro E. rewrite E in Hr. discriminate Hr. }
  assert (Hdenom : 0 < g / r).
  { unfold Qdiv. apply Qmult_lt_0_compat; [exact Hpos|].
    apply Qinv_lt_0_compat. exact Hr. }
  unfold GoalPlanner.monthlyTopUp.
  apply Qgtb_true in Hgap. rewrite Hgap.
  fold r. fold g.
  apply Qgtb_true in Hdenom. rewrite Hdenom.
  field. split; assumption.
Qed.

Lemma monthlyTopUp_none (gap : Q) (months : option Z) :
  gap <= 0 -> GoalPlanner.monthlyTopUp gap months = 0.
Proof.
  intro H. unfold GoalPlanner.monthlyTopUp.
  apply Qgtb_false in H. rewrite H. reflexivity.
Qed.

Lemma calculateMonths_valid Date_parse today s t :
  Date_parse s = Some t ->
  exists n, GoalService.calculateMonths Date_parse today s = Some n
            /\ (1 <= n)%Z.
Proof.
  intro H. unfold GoalService.calculateMonths. rewrite H.
  eexists. split; [reflexivity|]. apply Z.le_max_l.
Qed.

(** ** Goal planner *)





(** C1: the planner's gap is max(0, target_amount - final amount) of the
    selected scenario.  When that gap is strictly positive - the final
    amount is below the target - (and the target date parses), the
    suggested extra monthly contribution is gap * r / ((1+r)^n - 1), that
    is (target - final) * r / ((1+r)^n - 1), with r = 0.06/12 and n the
    month count of [calculateMonths]; when the gap is zero - the final
    amount reaches the target - the suggestion stays 0. *)
Theorem C1_monthly_needed_is_annuity_payment :
  forall (Date_parse : string -> option Z) (today : Z)
         (st : GoalPlanner.State) (sim : SimulationResult) (g : GoalBase)
         (final : YearlyProjection) (t : Z),
    GoalPlanner.simulation st = Some sim ->
    GoalPlanner.goal st = Some g ->
    last (map Some (scenario_of (scenarios sim) (GoalPlanner.scenarioView st)))
         None = Some final ->
    Date_parse (target_date g) = Some t ->
    exists (m : GoalPlanner.Metrics) (n : Z),
      GoalPlanner.getScenarioMetrics Date_parse today st = Returns m
      /\ GoalService.calculateMonths Date_parse today (target_date g) = Some n
      /\ GoalPlanner.topup_rate == (6 # 100) / 12
      /\ (0 < GoalPlanner.gap m ->
          GoalPlanner.monthlyNeeded m
          == GoalPlanner.gap m * GoalPlanner.topup_rate
             / ((1 + GoalPlanner.topup_rate) ^ n - 1))
      /\ (GoalPlanner.gap m == 0 -> GoalPlanner.monthlyNeeded m = 0)
      /\ GoalPlanner.gap m = Qmax 0 (target_amount g - amount final)
      /\ n = Z.max 1
               (Qfloor
                  (inject_Z
                     (Qceiling (inject_Z (Z.abs (t - today))
                                / inject_Z GoalService.MS_PER_DAY))
                   / GoalService.DAYS_PER_MONTH))
      /\ (amount final < target_amount g ->
          0 < GoalPlanner.gap m
          /\ GoalPlanner.monthlyNeeded m
             == (target_amount g - amount final) * GoalPlanner.topup_rate
                / ((1 + GoalPlanner.topup_rate) ^ n - 1))
      /\ (target_amount g <= amount final ->
          GoalPlanner.gap m == 0 /\ GoalPlanner.monthlyNeeded m = 0).
Proof.
  intros Date_parse today st sim g final t Hs Hg Hlast Hdate.
  destruct (calculateMonths_valid Date_parse today _ _ Hdate) as (n & Hn & Hn1).
  assert (Hnval : n = Z.max 1
                        (Qfloor
                           (inject_Z
                              (Qceiling (inject_Z (Z.abs (t - today))
                                         / inject_Z GoalService.MS_PER_DAY))
                            / GoalService.DAYS_PER_MONTH))).
  { unfold GoalService.calculateMonths in Hn. rewrite Hdate in Hn.
    injection Hn as <-. reflexivity. }
  unfold GoalPlanner.getScenarioMetrics. rewrite Hs, Hg, Hlast, Hn.
  eexists. exists n. split; [reflexivity|]. split; [reflexivity|].
  split; [reflexivity|].
  cbn [GoalPlanner.gap GoalPlanner.monthlyNeeded]. unfold Math_max.
  set (d := target_amount g - amount final).
  split; [|split; [|split; [|split; [|split]]]].
  - intro Hpos. apply monthlyTopUp_formula; assumption.
  - intro Hz. apply monthlyTopUp_none. rewrite Hz. apply Qle_refl.
  - reflexivity.
  - exact Hnval.
  - intro Hshort.
    assert (Hd : 0 < d).
    { unfold d. apply Qlt_minus_iff in Hshort. exact Hshort. }
    assert (Hmax : Qmax 0 d == d).
    { apply Q.max_r. apply Qlt_le_weak. exact Hd. }
    split; [rewrite Hmax; exact Hd|].
    rewrite monthlyTopUp_formula;
      [|rewrite Hmax; exact Hd | exact Hn1].
    rewrite Hmax. reflexivity.
  - intro Hle.
    assert (Hd : d <= 0).
    { unfold d. apply (Qplus_le_l _ _ (amount final)).
      setoid_replace (target_amount g - amount final + amount final)
        with (target_amount g) by ring.
      rewrite Qplus_0_l. exact Hle. }
    assert (Hmax : Qmax 0 d == 0) by (apply Q.max_l; exact Hd).
    split; [exact Hmax|].
    apply monthlyTopUp_none. rewrite Hmax. apply Qle_refl.
Qed.

Lemma C1_witness :
  exists (m : GoalPlanner.Metrics) (n : Z),
    GoalPlanner.getScenarioMetrics Examples.dates Examples.today
      (Examples.planner "2030-01-01" ViewWorst) = Returns m
    /\ GoalService.calculateMonths Examples.dates Examples.today "2030-01-01"
       = Some n
    /\ GoalPlanner.topup_rate == (6 # 100) / 12
    /\ (0 < GoalPlanner.gap m ->
        GoalPlanner.monthlyNeeded m
        == GoalPlanner.gap m * GoalPlanner.topup_rate
           / ((1 + GoalPlanner.topup_rate) ^ n - 1))
    /\ (GoalPlanner.gap m == 0 -> GoalPlanner.monthlyNeeded m = 0)
    /\ GoalPlanner.gap m = Qmax 0 (50000 - 40000)
    /\ n = Z.max 1
             (Qfloor
                (inject_Z
                   (Qceiling (inject_Z (Z.abs (1893456000000 - Examples.today))
                              / inject_Z GoalService.MS_PER_DAY))
                 / GoalService.DAYS_PER_MONTH))
    /\ (40000 < 50000 ->
        0 < GoalPlanner.gap m
        /\ GoalPlanner.monthlyNeeded m
           == (50000 - 40000) * GoalPlanner.topup_rate
              / ((1 + GoalPlanner.topup_rate) ^ n - 1))
    /\ (50000 <= 40000 ->
        GoalPlanner.gap m == 0 /\ GoalPlanner.monthlyNeeded m = 0).
Proof.
  apply (C1_monthly_needed_is_annuity_payment Examples.dates Examples.today
           (Examples.planner "2030-01-01" ViewWorst) Examples.sim
           (Examples.house "2030-01-01") (Examples.projection 2 40000)
           1893456000000%Z);
    reflexivity.
Defined.




(** ** The SSE hook *)

Lemma split_newline_nonempty (s : string) : SSE.split_newline s <> [].
Proof.
  destruct s as [|c s]; simpl; [discriminate|].
  destruct (Ascii.eqb c "010"%char); [discriminate|].
  destruct (SSE.split_newline s); discriminate.
Qed.

Lemma string_app_assoc (a b c : string) : ((a ++ b) ++ c = a ++ (b ++ c))%string.
Proof.
  induction a as [|x a IH]; simpl; [reflexivity|]. now rewrite IH.
Qed.

Lemma string_app_nil_r (a : string) : (a ++ "" = a)%string.
Proof.
  induction a as [|x a IH]; simpl; [reflexivity|]. now rewrite IH.
Qed.

(** Splitting a text that arrives in two parts: the complete lines of the
    first part, then the split of its remainder followed by the second. *)
Lemma split_newline_app (a b : string) :
  SSE.split_newline (a ++ b)
  = (removelast (SSE.split_newline a)
     ++ SSE.split_newline (last (SSE.split_newline a) "" ++ b))%list.
Proof.
  induction a as [|c a IH]; [reflexivity|].
  simpl. destruct (Ascii.eqb c "010"%char) eqn:Ec.
  - rewrite IH.
    pose proof (split_newline_nonempty a) as Hne.
    destruct (SSE.split_newline a) as [|l ls]; [congruence|]. reflexivity.
  - rewrite IH.
    pose proof (split_newline_nonempty a) as Hne.
    destruct (SSE.split_newline a) as [|l ls]; [congruence|].
    destruct ls as [|x ls'].
    + simpl. rewrite Ec. reflexivity.
    + reflexivity.
Qed.

(** What is kept in the buffer contains no newline. *)
Lemma split_newline_last (s : string) :
  SSE.split_newline (last (SSE.split_newline s) "")
  = [last (SSE.split_newline s) ""].
Proof.
  induction s as [|c s IH]; [reflexivity|].
  simpl. pose proof (split_newline_nonempty s) as Hne.
  destruct (Ascii.eqb c "010"%char) eqn:Ec.
  - destruct (SSE.split_newline s) as [|l ls]; [congruence|]. exact IH.
  - destruct (SSE.split_newline s) as [|l ls]; [congruence|].
    destruct ls as [|x ls'].
    + simpl in *. rewrite Ec. rewrite IH. reflexivity.
    + exact IH.
Qed.

Lemma last_app_nonempty {A : Type} (l1 l2 : list A) (d : A) :
  l2 <> [] -> last (l1 ++ l2) d = last l2 d.
Proof.
  intro H. induction l1 as [|x l1 IH]; [reflexivity|].
  simpl. rewrite IH. destruct (l1 ++ l2)%list eqn:E; [|reflexivity].
  apply app_eq_nil in E. destruct E. congruence.
Qed.

Lemma removelast_app_nonempty {A : Type} (l1 l2 : list A) :
  l2 <> [] -> removelast (l1 ++ l2) = (l1 ++ removelast l2)%list.
Proof. intro H. apply removelast_app. exact H. Qed.

Section SSEProperties.

Variable TResult : Type.
Variable JSON_parse : string -> option (SSE.SSEMessage TResult).
Variable DecoderState : Type.
Variable decoder_step : DecoderState -> Byte.byte -> DecoderState * string.

Local Abbreviation processLine := (SSE.processLine JSON_parse).
Local Abbreviation decode := (SSE.decode decoder_step).
Local Abbreviation readChunk := (SSE.readChunk JSON_parse decoder_step).
Local Abbreviation readChunks := (SSE.readChunks JSON_parse decoder_step).
Local Abbreviation events_of := (SSE.events_of JSON_parse).

Lemma decode_app (d : DecoderState) (v1 v2 : list Byte.byte) :
  decode d (v1 ++ v2)
  = (fst (decode (fst (decode d v1)) v2),
     (snd (decode d v1) ++ snd (decode (fst (decode d v1)) v2))%string).
Proof.
  revert d. induction v1 as [|b v1 IH]; intro d.
  - simpl. destruct (decode d v2); reflexivity.
  - simpl. destruct (decoder_step d b) as [d1 s1].
    rewrite IH. destruct (decode d1 v1) as [d2 s2]. simpl.
    rewrite string_app_assoc. reflexivity.
Qed.

(** Two reads in a row are one read of the two chunks joined. *)
Lemma readChunk_app (s : SSE.Reader DecoderState * SSE.Run TResult)
      (v1 v2 : list Byte.byte) :
  readChunk (readChunk s v1) v2 = readChunk s (v1 ++ v2).
Proof.
  destruct s as [rd r]. unfold SSE.readChunk.
  rewrite decode_app.
  destruct (decode (SSE.decoder rd) v1) as [d1 c1].
  cbn [fst snd SSE.decoder SSE.messageBuffer].
  destruct (decode d1 v2) as [d2 c2]. cbn [fst snd].
  rewrite <- string_app_assoc.
  rewrite (split_newline_app (SSE.messageBuffer rd ++ c1) c2).
  set (lines1 := SSE.split_newline (SSE.messageBuffer rd ++ c1)).
  set (lines2 := SSE.split_newline (last lines1 "" ++ c2)).
  assert (Hne : lines2 <> []) by apply split_newline_nonempty.
  rewrite last_app_nonempty by exact Hne.
  rewrite removelast_app_nonempty by exact Hne.
  rewrite fold_left_app. reflexivity.
Qed.

Lemma readChunk_clean s v : SSE.buffer_clean (readChunk s v).
Proof.
  destruct s as [rd r]. unfold SSE.buffer_clean, SSE.readChunk.
  destruct (decode (SSE.decoder rd) v) as [d1 c1].
  cbn [fst SSE.messageBuffer]. apply split_newline_last.
Qed.

Lemma readChunk_nil s : SSE.buffer_clean s -> readChunk s [] = s.
Proof.
  destruct s as [[d mb] r]. unfold SSE.buffer_clean, SSE.readChunk.
  cbn [fst SSE.messageBuffer SSE.decoder SSE.decode].
  rewrite string_app_nil_r. intro H. rewrite H. reflexivity.
Qed.

Lemma readChunks_concat s (values : list (list Byte.byte)) :
  SSE.buffer_clean s -> readChunks s values = readChunk s (List.concat values).
Proof.
  revert s. induction values as [|v values IH]; intros s Hs.
  - simpl. symmetry. apply readChunk_nil. exact Hs.
  - cbn [SSE.readChunks fold_left List.concat].
    change (fold_left readChunk values (readChunk s v))
      with (readChunks (readChunk s v) values).
    rewrite IH by apply readChunk_clean.
    apply readChunk_app.
Qed.

(** From a fresh reader, the run is the fold of [processLine] over the
    complete lines of the decoded text. *)
Lemma readChunks_lines (d0 : DecoderState) (r0 : SSE.Run TResult) values :
  snd (readChunks ({| SSE.decoder := d0; SSE.messageBuffer := "" |}, r0)
                  values)
  = fold_left processLine
      (SSE.complete_lines (SSE.decoded_text decoder_step d0 values)) r0.
Proof.
  rewrite readChunks_concat by reflexivity.
  unfold SSE.readChunk, SSE.complete_lines, SSE.decoded_text.
  cbn [SSE.decoder SSE.messageBuffer].
  destruct (decode d0 (List.concat values)) as [d1 c1].
  reflexivity.
Qed.

End SSEProperties.

Section SSERuns.

Variable TResult : Type.
Variable JSON_parse : string -> option (SSE.SSEMessage TResult).

Local Abbreviation processLine := (SSE.processLine JSON_parse).
Local Abbreviation events_of := (SSE.events_of JSON_parse).

(** [handleMessage] is the reducer [message_hook] together with the
    callbacks [message_effects]. *)
Lemma handleMessage_reducer (r : SSE.Run TResult) (m : SSE.SSEMessage TResult) :
  SSE.handleMessage r m
  = {| SSE.hook := SSE.message_hook (SSE.hook r) m;
       SSE.resultData := SSE.message_result (SSE.resultData r) m;
       SSE.effects := (SSE.effects r ++ SSE.message_effects m)%list |}.
Proof.
  destruct r as [h d e], m as [ty msg dat p].
  unfold SSE.handleMessage, SSE.message_hook, SSE.message_effects,
    SSE.message_result, SSE.is_complete, SSE.onMessageField,
    SSE.onProgressField, SSE.emit, SSE.set_hook.
  destruct ty, p as [p|], msg as [[|c s]|]; cbn;
    rewrite ?app_nil_r, <- ?app_assoc; try reflexivity;
    destruct h; reflexivity.
Qed.

(** A line either carries a message, which is handled, or changes nothing
    but the console. *)
Lemma processLine_cases (r : SSE.Run TResult) (l : string) :
  match SSE.message_of_line JSON_parse l with
  | Some m => processLine r l = SSE.handleMessage r m
  | None =>
      SSE.hook (processLine r l) = SSE.hook r
      /\ SSE.resultData (processLine r l) = SSE.resultData r
      /\ forall f, SSE.quiet f ->
           filter f (SSE.effects (processLine r l))
           = filter f (SSE.effects r)
  end.
Proof.
  unfold SSE.message_of_line, SSE.processLine.
  destruct (prefix "data: " l).
  - destruct (JSON_parse (SSE.slice_from 6 l)) as [m|]; [reflexivity|].
    repeat split. intros f Hf. cbn. rewrite filter_app. cbn.
    rewrite Hf. apply app_nil_r.
  - repeat split.
Qed.

(** A run over lines, seen through the events the lines carry. *)
Lemma fold_processLine (lines : list string) (r : SSE.Run TResult) :
  SSE.hook (fold_left processLine lines r)
  = fold_left (@SSE.message_hook TResult) (events_of lines) (SSE.hook r)
  /\ SSE.resultData (fold_left processLine lines r)
     = fold_left (@SSE.message_result TResult) (events_of lines)
                 (SSE.resultData r)
  /\ forall f, SSE.quiet f ->
       filter f (SSE.effects (fold_left processLine lines r))
       = (filter f (SSE.effects r)
          ++ filter f (flat_map (@SSE.message_effects TResult)
                                (events_of lines)))%list.
Proof.
  revert r. induction lines as [|l lines IH]; intro r.
  - cbn. repeat split. intros f _. now rewrite app_nil_r.
  - cbn [fold_left SSE.events_of].
    destruct (IH (processLine r l)) as (Hh & Hd & He).
    pose proof (processLine_cases r l) as Hc.
    destruct (SSE.message_of_line JSON_parse l) as [m|].
    + rewrite Hc in Hh, Hd, He |- *. clear Hc.
      rewrite Hh, Hd. split; [|split].
      * rewrite handleMessage_reducer. reflexivity.
      * rewrite handleMessage_reducer. reflexivity.
      * intros f Hf. rewrite He by exact Hf.
        rewrite handleMessage_reducer. cbn.
        rewrite !filter_app, app_assoc. reflexivity.
    + destruct Hc as (Hch & Hcd & Hce).
      rewrite Hh, Hd, Hch, Hcd. repeat split. intros f Hf.
      rewrite He by exact Hf. rewrite Hce by exact Hf. reflexivity.
Qed.

Lemma no_complete_result (pre : list (SSE.SSEMessage TResult)) d :
  existsb (@SSE.is_complete TResult) pre = false ->
  fold_left (@SSE.message_result TResult) pre d = d.
Proof.
  revert d. induction pre as [|m pre IH]; intros d H; [reflexivity|].
  cbn in H. apply orb_false_iff in H. destruct H as [Hm Hpre].
  cbn. unfold SSE.message_result at 2. rewrite Hm. apply IH. exact Hpre.
Qed.

Lemma no_complete_calls (pre : list (SSE.SSEMessage TResult)) :
  existsb (@SSE.is_complete TResult) pre = false ->
  filter (@SSE.is_call_complete TResult)
         (flat_map (@SSE.message_effects TResult) pre) = [].
Proof.
  induction pre as [|m pre IH]; intro H; [reflexivity|].
  cbn in H. apply orb_false_iff in H. destruct H as [Hm Hpre].
  cbn. rewrite filter_app, (IH Hpre), app_nil_r.
  destruct m as [ty msg dat p]. unfold SSE.is_complete in Hm. cbn in Hm.
  unfold SSE.message_effects. cbn.
  destruct ty, p as [p|], msg as [[|c s]|]; try reflexivity; discriminate.
Qed.

Lemma no_error_calls (pre : list (SSE.SSEMessage TResult)) :
  existsb (@SSE.is_error TResult) pre = false ->
  filter (@SSE.is_call_error TResult)
         (flat_map (@SSE.message_effects TResult) pre) = [].
Proof.
  induction pre as [|m pre IH]; intro H; [reflexivity|].
  cbn in H. apply orb_false_iff in H. destruct H as [Hm Hpre].
  cbn. rewrite filter_app, (IH Hpre), app_nil_r.
  destruct m as [ty msg dat p]. unfold SSE.is_error in Hm. cbn in Hm.
  unfold SSE.message_effects. cbn.
  destruct ty, p as [p|], msg as [[|c s]|]; try reflexivity; discriminate.
Qed.

End SSERuns.

(** C10: the stream reducer does not depend on how the bytes are cut into
    chunks.  Two chunk sequences with the same concatenation leave the loop,
    and the whole [stream] call, in the same state (logs, result, error,
    progress, callbacks, buffer); that state is the one obtained by handling
    the complete lines of the decoded text in order; and a line without the
    prefix "data: " changes nothing. *)
Theorem C10_stream_is_chunking_invariant :
  forall (TResult : Type)
         (JSON_parse : string -> option (SSE.SSEMessage TResult))
         (DecoderState : Type)
         (decoder_step : DecoderState -> Byte.byte -> DecoderState * string)
         (autoReset : bool) (d0 : DecoderState)
         (prev : SSE.HookState TResult) (r0 : SSE.Run TResult)
         (ending : SSE.StreamEnd)
         (values1 values2 : list (list Byte.byte)),
    List.concat values1 = List.concat values2 ->
    SSE.readChunks JSON_parse decoder_step
      ({| SSE.decoder := d0; SSE.messageBuffer := "" |}, r0) values1
    = SSE.readChunks JSON_parse decoder_step
        ({| SSE.decoder := d0; SSE.messageBuffer := "" |}, r0) values2
    /\ SSE.stream JSON_parse decoder_step autoReset d0 prev
         (SSE.Body values1 ending)
       = SSE.stream JSON_parse decoder_step autoReset d0 prev
           (SSE.Body values2 ending)
    /\ snd (SSE.readChunks JSON_parse decoder_step
              ({| SSE.decoder := d0; SSE.messageBuffer := "" |}, r0) values1)
       = fold_left (SSE.processLine JSON_parse)
           (SSE.complete_lines (SSE.decoded_text decoder_step d0 values1)) r0
    /\ (forall (r : SSE.Run TResult) (line : string),
          prefix "data: " line = false ->
          SSE.processLine JSON_parse r line = r).
Proof.
  intros TResult JSON_parse DecoderState decoder_step autoReset d0 prev r0
         ending values1 values2 Hcat.
  assert (Hloop : forall r,
             SSE.readChunks JSON_parse decoder_step
               ({| SSE.decoder := d0; SSE.messageBuffer := "" |}, r) values1
             = SSE.readChunks JSON_parse decoder_step
                 ({| SSE.decoder := d0; SSE.messageBuffer := "" |}, r) values2).
  { intro r. rewrite !readChunks_concat by reflexivity.
    rewrite Hcat. reflexivity. }
  split; [apply Hloop|]. split.
  - unfold SSE.stream. rewrite Hloop. reflexivity.
  - split; [apply readChunks_lines|].
    intros r line Hp. unfold SSE.processLine. rewrite Hp. reflexivity.
Qed.

Lemma C10_witness :
  SSE.readChunks Examples.parse Examples.latin1_step
    ({| SSE.decoder := tt; SSE.messageBuffer := "" |},
     SSE.mkRun (SSE.initialState Z) None []) Examples.whole
  = SSE.readChunks Examples.parse Examples.latin1_step
      ({| SSE.decoder := tt; SSE.messageBuffer := "" |},
       SSE.mkRun (SSE.initialState Z) None []) Examples.cut
  /\ SSE.stream Examples.parse Examples.latin1_step false tt
       (SSE.initialState Z) (SSE.Body Examples.whole SSE.Done)
     = SSE.stream Examples.parse Examples.latin1_step false tt
         (SSE.initialState Z) (SSE.Body Examples.cut SSE.Done)
  /\ snd (SSE.readChunks Examples.parse Examples.latin1_step
            ({| SSE.decoder := tt; SSE.messageBuffer := "" |},
             SSE.mkRun (SSE.initialState Z) None []) Examples.whole)
     = fold_left (SSE.processLine Examples.parse)
         (SSE.complete_lines
            (SSE.decoded_text Examples.latin1_step tt Examples.whole))
         (SSE.mkRun (SSE.initialState Z) None [])
  /\ (forall (r : SSE.Run Z) (line : string),
        prefix "data: " line = false ->
        SSE.processLine Examples.parse r line = r).
Proof.
  apply (C10_stream_is_chunking_invariant Z Examples.parse unit
           Examples.latin1_step false tt (SSE.initialState Z)
           (SSE.mkRun (SSE.initialState Z) None []) SSE.Done
           Examples.whole Examples.cut).
  vm_compute. reflexivity.
Defined.

(** C4: when the events of a streaming run end in exactly one complete event
    or exactly one error event, the hook delivers the outcome once.  After a
    terminal complete event the result is that event's data, [isStreaming]
    is false, progress is 100, [stream] returns the data and [onComplete]
    has fired exactly once (and [onError] never); after a terminal error
    event the error is its message (or "Unknown error"), [isStreaming] is
    false, [stream] returns null and [onError] has fired exactly once (and
    [onComplete] never). *)
Theorem C4_stream_delivers_final_result_once :
  forall (TResult : Type)
         (JSON_parse : string -> option (SSE.SSEMessage TResult))
         (DecoderState : Type)
         (decoder_step : DecoderState -> Byte.byte -> DecoderState * string)
         (autoReset : bool) (d0 : DecoderState)
         (prev : SSE.HookState TResult)
         (values : list (list Byte.byte)) (m : SSE.SSEMessage TResult),
    SSE.terminates_in
      (SSE.events_of JSON_parse
         (SSE.complete_lines (SSE.decoded_text decoder_step d0 values))) m ->
    let r := SSE.stream JSON_parse decoder_step autoReset d0 prev
               (SSE.Body values SSE.Done) in
    (SSE.type m = SSE.TComplete ->
       SSE.result (SSE.hook r) = SSE.data m
       /\ SSE.isStreaming (SSE.hook r) = false
       /\ SSE.st_progress (SSE.hook r) = Some 100
       /\ SSE.resultData r = SSE.data m
       /\ filter (@SSE.is_call_complete TResult) (SSE.effects r)
          = [SSE.CallOnComplete (SSE.data m)]
       /\ filter (@SSE.is_call_error TResult) (SSE.effects r) = [])
    /\ (SSE.type m = SSE.TError ->
          SSE.error (SSE.hook r)
          = Some (SSE.or_default (SSE.message m) "Unknown error")
          /\ SSE.isStreaming (SSE.hook r) = false
          /\ SSE.resultData r = None
          /\ filter (@SSE.is_call_error TResult) (SSE.effects r)
             = [SSE.CallOnError TResult
                  (SSE.or_default (SSE.message m) "Unknown error")]
          /\ filter (@SSE.is_call_complete TResult) (SSE.effects r) = []).
Proof.
  intros TResult JSON_parse DecoderState decoder_step autoReset d0 prev
         values m (pre & Hev & Hnc & Hne & _) r.
  subst r. unfold SSE.stream.
  set (r0 := {| SSE.hook := SSE.startStream autoReset prev;
                SSE.resultData := None; SSE.effects := [] |}).
  pose proof (readChunks_lines TResult JSON_parse DecoderState decoder_step
                d0 r0 values) as Hrun.
  destruct (SSE.readChunks JSON_parse decoder_step
              ({| SSE.decoder := d0; SSE.messageBuffer := "" |}, r0) values)
    as [rd r].
  cbn [snd] in Hrun. subst r.
  destruct (fold_processLine TResult JSON_parse
              (SSE.complete_lines (SSE.decoded_text decoder_step d0 values))
              r0) as (Hh & Hd & He).
  rewrite Hev in Hh, Hd, He.
  rewrite fold_left_app in Hh, Hd. cbn [fold_left] in Hh, Hd.
  rewrite (no_complete_result TResult pre _ Hnc) in Hd.
  assert (Hec : filter (@SSE.is_call_complete TResult)
                  (SSE.effects
                     (fold_left (SSE.processLine JSON_parse)
                        (SSE.complete_lines
                           (SSE.decoded_text decoder_step d0 values)) r0))
                = filter (@SSE.is_call_complete TResult)
                    (SSE.message_effects m)).
  { rewrite He by (intro; reflexivity).
    rewrite flat_map_app, filter_app, (no_complete_calls TResult pre Hnc).
    cbn. rewrite app_nil_r. reflexivity. }
  assert (Hee : filter (@SSE.is_call_error TResult)
                  (SSE.effects
                     (fold_left (SSE.processLine JSON_parse)
                        (SSE.complete_lines
                           (SSE.decoded_text decoder_step d0 values)) r0))
                = filter (@SSE.is_call_error TResult)
                    (SSE.message_effects m)).
  { rewrite He by (intro; reflexivity).
    rewrite flat_map_app, filter_app, (no_error_calls TResult pre Hne).
    cbn. rewrite app_nil_r. reflexivity. }
  rewrite Hh, Hd, Hec, Hee.
  unfold SSE.message_hook, SSE.message_result, SSE.message_effects,
    SSE.is_complete.
  split; intro Hty; rewrite Hty; cbn; repeat split.
Qed.

Lemma C4_witness :
  let m := SSE.mkSSEMessage SSE.TComplete None (Some 7%Z) None in
  let r := SSE.stream Examples.parse Examples.latin1_step false tt
             (SSE.initialState Z) (SSE.Body Examples.cut SSE.Done) in
  (SSE.type m = SSE.TComplete ->
     SSE.result (SSE.hook r) = SSE.data m
     /\ SSE.isStreaming (SSE.hook r) = false
     /\ SSE.st_progress (SSE.hook r) = Some 100
     /\ SSE.resultData r = SSE.data m
     /\ filter (@SSE.is_call_complete Z) (SSE.effects r)
        = [SSE.CallOnComplete (SSE.data m)]
     /\ filter (@SSE.is_call_error Z) (SSE.effects r) = [])
  /\ (SSE.type m = SSE.TError ->
        SSE.error (SSE.hook r)
        = Some (SSE.or_default (SSE.message m) "Unknown error")
        /\ SSE.isStreaming (SSE.hook r) = false
        /\ SSE.resultData r = None
        /\ filter (@SSE.is_call_error Z) (SSE.effects r)
           = [SSE.CallOnError Z
                (SSE.or_default (SSE.message m) "Unknown error")]
        /\ filter (@SSE.is_call_complete Z) (SSE.effects r) = []).
Proof.
  apply (C4_stream_delivers_final_result_once Z Examples.parse unit
           Examples.latin1_step false tt (SSE.initialState Z) Examples.cut
           (SSE.mkSSEMessage SSE.TComplete None (Some 7%Z) None)).
  exists [SSE.mkSSEMessage SSE.TProgress None None (Some 40)].
  repeat split; vm_compute; reflexivity.
Defined.

(** ** Percentile bands *)

Lemma Qle_bool_false (x y : Q) : Qle_bool x y = false -> y <= x.
Proof.
  intro H. apply Qlt_le_weak. apply Qnot_le_lt.
  intro Hle. apply Qle_bool_iff in Hle. congruence.
Qed.

Lemma insert_sorted_Forall (a x : Q) (l : list Q) :
  a <= x -> Forall (Qle a) l -> Forall (Qle a) (MonteCarlo.insert_sorted x l).
Proof.
  intros Hax Hl. induction Hl as [|y l Hy Hl IH]; cbn.
  - constructor; [exact Hax | constructor].
  - destruct (Qle_bool x y).
    + constructor; [exact Hax|]. constructor; assumption.
    + constructor; assumption.
Qed.

Lemma insert_sorted_sorted (x : Q) (l : list Q) :
  StronglySorted Qle l -> StronglySorted Qle (MonteCarlo.insert_sorted x l).
Proof.
  intro Hs. induction Hs as [|y l Hs IH Hy]; cbn.
  - constructor; constructor.
  - destruct (Qle_bool x y) eqn:E.
    + apply Qle_bool_iff in E. constructor.
      * constructor; assumption.
      * constructor; [exact E|].
        eapply Forall_impl; [|exact Hy].
        intros z Hz. eapply Qle_trans; eassumption.
    + constructor; [exact IH|].
      apply insert_sorted_Forall; [|exact Hy].
      apply Qle_bool_false. exact E.
Qed.

Lemma sort_values_sorted (l : list Q) :
  StronglySorted Qle (MonteCarlo.sort_values l).
Proof.
  induction l as [|x l IH]; [constructor|].
  change (MonteCarlo.sort_values (x :: l))
    with (MonteCarlo.insert_sorted x (MonteCarlo.sort_values l)).
  apply insert_sorted_sorted. exact IH.
Qed.

Lemma insert_sorted_length (x : Q) (l : list Q) :
  List.length (MonteCarlo.insert_sorted x l) = S (List.length l).
Proof.
  induction l as [|y l IH]; cbn; [reflexivity|].
  destruct (Qle_bool x y); cbn; [reflexivity|]. now rewrite IH.
Qed.

Lemma sort_values_length (l : list Q) :
  List.length (MonteCarlo.sort_values l) = List.length l.
Proof.
  induction l as [|x l IH]; [reflexivity|].
  change (MonteCarlo.sort_values (x :: l))
    with (MonteCarlo.insert_sorted x (MonteCarlo.sort_values l)).
  rewrite insert_sorted_length, IH. reflexivity.
Qed.

(** In an ascending list a later position holds a value at least as large. *)
Lemma sorted_nth_le (l : list Q) :
  StronglySorted Qle l ->
  forall i j : nat, (i <= j)%nat -> (j < List.length l)%nat ->
                    nth i l 0 <= nth j l 0.
Proof.
  intro Hs. induction Hs as [|a l Hs IH Ha]; intros i j Hij Hj.
  - cbn in Hj. lia.
  - destruct i as [|i], j as [|j]; cbn in *.
    + apply Qle_refl.
    + rewrite Forall_forall in Ha. apply Ha. apply nth_In. lia.
    + lia.
    + apply IH; lia.
Qed.

Lemma percentile_mono (p q : nat) (values : list Q) :
  (p <= q)%nat -> (q <= 100)%nat ->
  MonteCarlo.percentile p values <= MonteCarlo.percentile q values.
Proof.
  intros Hpq Hq. unfold MonteCarlo.percentile.
  destruct values as [|v values].
  - change (MonteCarlo.sort_values []) with (@nil Q).
    generalize (p * (List.length (@nil Q) - 1) / 100)%nat,
               (q * (List.length (@nil Q) - 1) / 100)%nat.
    intros [|a] [|b]; apply Qle_refl.
  - apply sorted_nth_le.
    + apply sort_values_sorted.
    + apply Nat.Div0.div_le_mono. apply Nat.mul_le_mono_r. exact Hpq.
    + rewrite sort_values_length.
      set (n := List.length (v :: values)).
      assert (Hn : (1 <= n)%nat) by (unfold n; cbn; lia).
      apply Nat.le_lt_trans with (n - 1)%nat; [|lia].
      apply Nat.Div0.div_le_upper_bound.
      apply Nat.mul_le_mono_r. exact Hq.
Qed.

Lemma band_nth_error (p : nat) (paths : list (list Q)) (steps t : nat) :
  (t < steps)%nat ->
  nth_error (MonteCarlo.band p paths steps) t
  = Some (MonteCarlo.percentile p (MonteCarlo.values_at paths t)).
Proof.
  intro Ht. unfold MonteCarlo.band.
  rewrite nth_error_map, nth_error_nth' with (d := 0%nat)
    by (rewrite length_seq; exact Ht).
  rewrite seq_nth by exact Ht. reflexivity.
Qed.

(** C5: at every time index of the [percentile_paths] of a Monte Carlo run,
    the five bands are in order: 5th <= 25th <= 50th <= 75th <= 95th. *)
Theorem C5_percentile_bands_are_ordered :
  forall (paths : list (list Q)) (steps t : nat),
    (t < steps)%nat ->
    exists v5 v25 v50 v75 v95 : Q,
      MonteCarlo.band_value (MonteCarlo.percentile_paths paths steps) "5" t
      = Some v5
      /\ MonteCarlo.band_value (MonteCarlo.percentile_paths paths steps) "25" t
         = Some v25
      /\ MonteCarlo.band_value (MonteCarlo.percentile_paths paths steps) "50" t
         = Some v50
      /\ MonteCarlo.band_value (MonteCarlo.percentile_paths paths steps) "75" t
         = Some v75
      /\ MonteCarlo.band_value (MonteCarlo.percentile_paths paths steps) "95" t
         = Some v95
      /\ v5 <= v25 /\ v25 <= v50 /\ v50 <= v75 /\ v75 <= v95.
Proof.
  intros paths steps t Ht.
  exists (MonteCarlo.percentile 5 (MonteCarlo.values_at paths t)),
         (MonteCarlo.percentile 25 (MonteCarlo.values_at paths t)),
         (MonteCarlo.percentile 50 (MonteCarlo.values_at paths t)),
         (MonteCarlo.percentile 75 (MonteCarlo.values_at paths t)),
         (MonteCarlo.percentile 95 (MonteCarlo.values_at paths t)).
  unfold MonteCarlo.band_value, MonteCarlo.percentile_paths.
  cbn [Portfolio.lookup String.eqb Ascii.eqb Bool.eqb].
  rewrite !band_nth_error by exact Ht.
  repeat split; apply percentile_mono; lia.
Qed.

Lemma C5_witness :
  exists v5 v25 v50 v75 v95 : Q,
    MonteCarlo.band_value
      (MonteCarlo.percentile_paths [[100; 130]; [100; 90]; [100; 110]] 2)
      "5" 1 = Some v5
    /\ MonteCarlo.band_value
         (MonteCarlo.percentile_paths [[100; 130]; [100; 90]; [100; 110]] 2)
         "25" 1 = Some v25
    /\ MonteCarlo.band_value
         (MonteCarlo.percentile_paths [[100; 130]; [100; 90]; [100; 110]] 2)
         "50" 1 = Some v50
    /\ MonteCarlo.band_value
         (MonteCarlo.percentile_paths [[100; 130]; [100; 90]; [100; 110]] 2)
         "75" 1 = Some v75
    /\ MonteCarlo.band_value
         (MonteCarlo.percentile_paths [[100; 130]; [100; 90]; [100; 110]] 2)
         "95" 1 = Some v95
    /\ v5 <= v25 /\ v25 <= v50 /\ v50 <= v75 /\ v75 <= v95.
Proof.
  apply (C5_percentile_bands_are_ordered
           [[100; 130]; [100; 90]; [100; 110]] 2 1).
  lia.
Defined.

(** ** Portfolio page *)

(** C6: when the optimize request succeeds (and the response carries a
    portfolio configuration), the requests sent by [handleOptimize] are the
    optimize request followed by one monte_carlo request whose weights and
    tickers are the configuration's [weights] and [selected_assets] and
    whose investment amount and horizon are those sent to optimize. *)
Theorem C6_monte_carlo_request_reuses_optimizer_output :
  forall (Details TableRow Sentiment : Type)
         (post_optimize :
            Portfolio.OptimizeRequest ->
            outcome (Portfolio.OptimizeResponse Details TableRow Sentiment))
         (post_monte_carlo :
            Portfolio.MonteCarloRequest -> outcome Portfolio.MCData)
         (st : Portfolio.State Details TableRow Sentiment)
         (resp : Portfolio.OptimizeResponse Details TableRow Sentiment)
         (res : Portfolio.Results Details)
         (cfg : Portfolio.PortfolioConfig),
    let req := {| Portfolio.opt_risk_tolerance :=
                    nth_error (Portfolio.risk st) 0;
                  Portfolio.opt_investment_amount := Portfolio.amount st;
                  Portfolio.opt_investment_horizon := Portfolio.horizon st;
                  Portfolio.opt_num_assets := Portfolio.assets st |} in
    post_optimize req = Returns resp ->
    Portfolio.results resp = Some res ->
    Portfolio.portfolio_config res = Some cfg ->
    filter (@Portfolio.is_request)
           (snd (Portfolio.handleOptimize post_optimize post_monte_carlo st))
    = [ Portfolio.PostOptimize req;
        Portfolio.PostMonteCarlo
          {| Portfolio.mc_weights := Portfolio.weights cfg;
             Portfolio.mc_investment_amount :=
               Portfolio.opt_investment_amount req;
             Portfolio.mc_investment_horizon :=
               Portfolio.opt_investment_horizon req;
             Portfolio.mc_tickers := Portfolio.selected_assets cfg |} ].
Proof.
  intros Details TableRow Sentiment post_optimize post_monte_carlo st resp
         res cfg req Hopt Hres Hcfg.
  unfold Portfolio.handleOptimize. fold req. rewrite Hopt, Hres.
  destruct res as [pc det]. cbn in Hcfg. subst pc.
  unfold Portfolio.runMonteCarlo.
  destruct (post_monte_carlo _); reflexivity.
Qed.

Lemma C6_witness :
  let cfg := {| Portfolio.weights := [("AAPL", 6 # 10); ("MSFT", 4 # 10)];
                Portfolio.selected_assets := ["AAPL"; "MSFT"] |} in
  let resp := {| Portfolio.results :=
                   Some {| Portfolio.portfolio_config := Some cfg;
                           Portfolio.details := tt |};
                 Portfolio.table_data := Some [tt];
                 Portfolio.resp_beta := Some 1;
                 Portfolio.resp_sentiment := Some tt |} in
  let st := {| Portfolio.risk := [1 # 2]; Portfolio.amount := 10000;
               Portfolio.horizon := 10; Portfolio.assets := 5;
               Portfolio.result := None; Portfolio.tableData := Some [];
               Portfolio.beta := None; Portfolio.mcData := None;
               Portfolio.sentiment := None; Portfolio.loading := false;
               Portfolio.mcLoading := false |} in
  filter (@Portfolio.is_request)
         (snd (Portfolio.handleOptimize
                 (fun _ => Returns resp)
                 (fun _ => Throws "Network Error") st))
  = [ Portfolio.PostOptimize
        {| Portfolio.opt_risk_tolerance := Some (1 # 2);
           Portfolio.opt_investment_amount := 10000;
           Portfolio.opt_investment_horizon := 10;
           Portfolio.opt_num_assets := 5 |};
      Portfolio.PostMonteCarlo
        {| Portfolio.mc_weights := [("AAPL", 6 # 10); ("MSFT", 4 # 10)];
           Portfolio.mc_investment_amount := 10000;
           Portfolio.mc_investment_horizon := 10;
           Portfolio.mc_tickers := ["AAPL"; "MSFT"] |} ].
Proof.
  intros cfg resp st.
  apply (C6_monte_carlo_request_reuses_optimizer_output unit unit unit
           (fun _ => Returns resp) (fun _ => Throws "Network Error") st resp
           {| Portfolio.portfolio_config := Some cfg;
              Portfolio.details := tt |} cfg);
    reflexivity.
Defined.

(** ** Comparison page *)

(** C7: for a slider value v in [0,100] the compare request built by
    [handleCompare] has risk_tolerance = v/100, which lies in [0,1], so the
    optimizer's out-of-range rejection does not apply to it. *)
Theorem C7_risk_tolerance_is_normalised :
  forall (ComparisonResponse : Type)
         (post_compare :
            Comparison.CompareRequest -> outcome ComparisonResponse)
         (st : Comparison.State ComparisonResponse) (v : Q),
    Comparison.slider_value v ->
    let req := snd (Comparison.handleCompare post_compare
                      (Comparison.setRiskTolerance st v)) in
    Comparison.risk_tolerance req = v / 100
    /\ 0 <= Comparison.risk_tolerance req
    /\ Comparison.risk_tolerance req <= 1
    /\ Comparison.rejects_tolerance (Comparison.risk_tolerance req) = false.
Proof.
  intros C post st v [Hlo Hhi] req.
  assert (Hreq : Comparison.risk_tolerance req = v / 100).
  { subst req. unfold Comparison.handleCompare.
    destruct (post _); reflexivity. }
  rewrite Hreq.
  assert (H0 : 0 <= v / 100).
  { apply Qle_shift_div_l; [reflexivity|]. rewrite Qmult_0_l. exact Hlo. }
  assert (H1 : v / 100 <= 1).
  { apply Qle_shift_div_r; [reflexivity|]. rewrite Qmult_1_l. exact Hhi. }
  repeat split; try assumption.
  unfold Comparison.rejects_tolerance.
  apply Qle_bool_iff in H0. apply Qle_bool_iff in H1.
  rewrite H0, H1. reflexivity.
Qed.

Lemma C7_witness :
  let req := snd (Comparison.handleCompare
                    (fun _ : Comparison.CompareRequest => Returns tt)
                    (Comparison.setRiskTolerance
                       (Comparison.mount (Comparison.defaultStore unit)) 73)) in
  Comparison.risk_tolerance req = 73 / 100
  /\ 0 <= Comparison.risk_tolerance req
  /\ Comparison.risk_tolerance req <= 1
  /\ Comparison.rejects_tolerance (Comparison.risk_tolerance req) = false.
Proof.
  apply (C7_risk_tolerance_is_normalised unit (fun _ => Returns tt)
           (Comparison.mount (Comparison.defaultStore unit)) 73).
  split; discriminate.
Defined.

(** ** Backtest page *)

(** C8: clearing the cache sends exactly one request, the DELETE of the
    backtest cache; the selected period, the portfolio data and [loading]
    are unchanged; on acknowledgement the stored backtest result becomes
    null, on failure it is left as it was. *)
Theorem C8_clear_cache_frame :
  forall (BacktestData : Type) (api_delete : string -> outcome unit)
         (st : Backtest.State BacktestData),
    let st' := fst (Backtest.handleClearCache api_delete st) in
    let eff := snd (Backtest.handleClearCache api_delete st) in
    filter Backtest.is_request eff
    = [Backtest.DeleteRequest "/quantum/backtest/cache"]
    /\ Backtest.backtestPeriod st' = Backtest.backtestPeriod st
    /\ Backtest.portfolioData st' = Backtest.portfolioData st
    /\ Backtest.loading st' = Backtest.loading st
    /\ Backtest.clearingCache st' = false
    /\ Backtest.backtestData st'
       = match api_delete "/quantum/backtest/cache" with
         | Returns _ => None
         | Throws _ => Backtest.backtestData st
         end.
Proof.
  intros B api_delete st st' eff. subst st' eff.
  unfold Backtest.handleClearCache.
  destruct (api_delete "/quantum/backtest/cache"); cbn; repeat split.
Qed.

(** * Further properties of the code *)

(** ** Goal service and goal planner *)

Lemma day_count_mono (a b : Z) :
  (a <= b)%Z ->
  (Qceiling (inject_Z a / inject_Z GoalService.MS_PER_DAY)
   <= Qceiling (inject_Z b / inject_Z GoalService.MS_PER_DAY))%Z.
Proof.
  intro H. apply Qceiling_resp_le.
  apply Qmult_le_compat_r; [rewrite <- Zle_Qle; exact H | discriminate].
Qed.

Lemma month_count_mono (a b : Z) :
  (a <= b)%Z ->
  (Qfloor (inject_Z a / GoalService.DAYS_PER_MONTH)
   <= Qfloor (inject_Z b / GoalService.DAYS_PER_MONTH))%Z.
Proof.
  intro H. apply Qfloor_resp_le.
  apply Qmult_le_compat_r; [rewrite <- Zle_Qle; exact H | discriminate].
Qed.

(** X1: the month count grows with the distance between the target date and
    today: a target at least as far away (in either direction) never gets
    fewer months. *)
Theorem calculateMonths_monotone_in_distance :
  forall (Date_parse : string -> option Z) (today : Z) (s1 s2 : string)
         (t1 t2 : Z),
    Date_parse s1 = Some t1 ->
    Date_parse s2 = Some t2 ->
    (Z.abs (t1 - today) <= Z.abs (t2 - today))%Z ->
    exists n1 n2 : Z,
      GoalService.calculateMonths Date_parse today s1 = Some n1
      /\ GoalService.calculateMonths Date_parse today s2 = Some n2
      /\ (n1 <= n2)%Z.
Proof.
  intros Date_parse today s1 s2 t1 t2 H1 H2 Hd.
  unfold GoalService.calculateMonths. rewrite H1, H2.
  eexists. eexists. split; [reflexivity|]. split; [reflexivity|].
  apply Z.max_le_compat_l. apply month_count_mono. apply day_count_mono.
  exact Hd.
Qed.

Lemma calculateMonths_monotone_witness :
  exists n1 n2 : Z,
    GoalService.calculateMonths Examples.dates Examples.today "2030-01-01"
    = Some n1
    /\ GoalService.calculateMonths Examples.dates Examples.today "2020-01-01"
       = Some n2
    /\ (n1 <= n2)%Z.
Proof.
  apply (calculateMonths_monotone_in_distance Examples.dates Examples.today
           "2030-01-01" "2020-01-01" 1893456000000%Z 1577836800000%Z);
    [reflexivity | reflexivity | unfold Examples.today; lia].
Defined.

(** X2: a target within 30 days of today, before or after it (today
    included), counts as one month: the floor would be 0 and the clamp
    lifts it to 1. *)
Theorem calculateMonths_is_one_within_thirty_days :
  forall (Date_parse : string -> option Z) (today : Z) (s : string) (t : Z),
    Date_parse s = Some t ->
    (Z.abs (t - today) <= 30 * GoalService.MS_PER_DAY)%Z ->
    GoalService.calculateMonths Date_parse today s = Some 1%Z.
Proof.
  intros Date_parse today s t H Hd.
  unfold GoalService.calculateMonths. rewrite H. f_equal.
  apply Z.max_l.
  apply Z.le_trans with 0%Z; [|lia].
  apply Z.le_trans
    with (Qfloor (inject_Z 30 / GoalService.DAYS_PER_MONTH));
    [|vm_compute; discriminate].
  apply month_count_mono.
  apply Z.le_trans
    with (Qceiling (inject_Z (30 * GoalService.MS_PER_DAY)
                    / inject_Z GoalService.MS_PER_DAY));
    [|vm_compute; discriminate].
  apply day_count_mono. exact Hd.
Qed.

Lemma calculateMonths_is_one_witness :
  GoalService.calculateMonths Examples.dates 1893456000000%Z "2030-01-01"
  = Some 1%Z.
Proof.
  apply (calculateMonths_is_one_within_thirty_days Examples.dates
           1893456000000%Z "2030-01-01" 1893456000000%Z).
  - reflexivity.
  - vm_compute. discriminate.
Defined.

(** X3: with a target date that does not parse the month count is NaN, and
    the planner then suggests no monthly top-up (0) whatever the gap. *)
Theorem unparsable_date_gives_no_suggestion :
  forall (Date_parse : string -> option Z) (today : Z)
         (st : GoalPlanner.State) (sim : SimulationResult) (g : GoalBase)
         (final : YearlyProjection),
    GoalPlanner.simulation st = Some sim ->
    GoalPlanner.goal st = Some g ->
    last (map Some (scenario_of (scenarios sim) (GoalPlanner.scenarioView st)))
         None = Some final ->
    Date_parse (target_date g) = None ->
    GoalService.calculateMonths Date_parse today (target_date g) = None
    /\ exists m : GoalPlanner.Metrics,
         GoalPlanner.getScenarioMetrics Date_parse today st = Returns m
         /\ GoalPlanner.gap m = Qmax 0 (target_amount g - amount final)
         /\ GoalPlanner.monthlyNeeded m = 0.
Proof.
  intros Date_parse today st sim g final Hs Hg Hlast Hdate.
  assert (Hn : GoalService.calculateMonths Date_parse today (target_date g)
               = None).
  { unfold GoalService.calculateMonths. rewrite Hdate. reflexivity. }
  split; [exact Hn|].
  unfold GoalPlanner.getScenarioMetrics. rewrite Hs, Hg, Hlast, Hn.
  eexists. split; [reflexivity|]. split; [reflexivity|].
  cbn [GoalPlanner.monthlyNeeded]. unfold GoalPlanner.monthlyTopUp.
  destruct (Qgtb _ 0); reflexivity.
Qed.

Lemma unparsable_date_witness :
  GoalService.calculateMonths Examples.dates Examples.today "soon" = None
  /\ exists m : GoalPlanner.Metrics,
       GoalPlanner.getScenarioMetrics Examples.dates Examples.today
         (Examples.planner "soon" ViewWorst) = Returns m
       /\ GoalPlanner.gap m = Qmax 0 (50000 - 40000)
       /\ GoalPlanner.monthlyNeeded m = 0.
Proof.
  apply (unparsable_date_gives_no_suggestion Examples.dates Examples.today
           (Examples.planner "soon" ViewWorst) Examples.sim
           (Examples.house "soon") (Examples.projection 2 40000));
    reflexivity.
Defined.

Lemma last_map_Some_none {A : Type} (l : list A) :
  last (map Some l) None = None <-> l = [].
Proof.
  split; [|intros ->; reflexivity].
  induction l as [|x l IH]; [reflexivity|].
  cbn. destruct l as [|y l]; [discriminate|].
  intro H. specialize (IH H). discriminate IH.
Qed.

(** X4: [getScenarioMetrics] throws exactly when goal and simulation are
    present and the selected scenario has no projection at all; the thrown
    error is the TypeError of reading [amount] of [undefined]. *)
Theorem getScenarioMetrics_throws_iff_empty_scenario :
  forall (Date_parse : string -> option Z) (today : Z)
         (st : GoalPlanner.State) (e : string),
    GoalPlanner.getScenarioMetrics Date_parse today st = Throws e
    <-> e = "TypeError"
        /\ exists (sim : SimulationResult) (g : GoalBase),
             GoalPlanner.simulation st = Some sim
             /\ GoalPlanner.goal st = Some g
             /\ scenario_of (scenarios sim) (GoalPlanner.scenarioView st) = [].
Proof.
  intros Date_parse today st e. unfold GoalPlanner.getScenarioMetrics.
  destruct (GoalPlanner.simulation st) as [sim|];
    destruct (GoalPlanner.goal st) as [g|];
    try (split; [discriminate | intros (_ & s' & g' & H1 & H2 & _);
                               discriminate]).
  destruct (last (map Some (scenario_of (scenarios sim)
                              (GoalPlanner.scenarioView st))) None)
    as [final|] eqn:Hlast.
  - split; [discriminate|].
    intros (_ & s' & g' & H1 & H2 & H3). injection H1 as <-.
    rewrite H3 in Hlast. discriminate Hlast.
  - apply last_map_Some_none in Hlast. split.
    + intro H. injection H as <-. split; [reflexivity|].
      exists sim, g. repeat split. exact Hlast.
    + intros (-> & _). reflexivity.
Qed.

Lemma Qpower_ge_base (q : Q) (n : Z) : 1 < q -> (1 <= n)%Z -> q <= q ^ n.
Proof.
  intros Hq Hn.
  assert (Hq0 : ~ q == 0).
  { intro E. rewrite E in Hq. discriminate Hq. }
  destruct (Z.eq_dec n 1) as [->|Hne].
  - rewrite Qpower_1_r. apply Qle_refl.
  - replace n with ((n - 1) + 1)%Z by lia.
    rewrite Qpower_plus by exact Hq0. rewrite Qpower_1_r.
    setoid_replace q with (1 * q) at 1 by ring.
    apply Qmult_le_compat_r.
    + apply Qlt_le_weak. apply Qpower_gt_1; [exact Hq | lia].
    + apply Qlt_le_weak. apply Qlt_trans with 1; [reflexivity | exact Hq].
Qed.

(** X5: when the gap is positive (and the date parses) the suggested
    monthly top-up is positive, never more than the gap itself, and paying
    it for the n months at the periodic rate accumulates exactly the gap:
    monthlyNeeded * ((1+r)^n - 1) / r = gap. *)
Theorem monthly_top_up_closes_the_gap :
  forall (Date_parse : string -> option Z) (today : Z)
         (st : GoalPlanner.State) (sim : SimulationResult) (g : GoalBase)
         (final : YearlyProjection) (t : Z),
    GoalPlanner.simulation st = Some sim ->
    GoalPlanner.goal st = Some g ->
    last (map Some (scenario_of (scenarios sim) (GoalPlanner.scenarioView st)))
         None = Some final ->
    Date_parse (target_date g) = Some t ->
    amount final < target_amount g ->
    exists (m : GoalPlanner.Metrics) (n : Z),
      GoalPlanner.getScenarioMetrics Date_parse today st = Returns m
      /\ GoalService.calculateMonths Date_parse today (target_date g) = Some n
      /\ 0 < GoalPlanner.monthlyNeeded m
      /\ GoalPlanner.monthlyNeeded m <= GoalPlanner.gap m
      /\ GoalPlanner.monthlyNeeded m
         * (((1 + GoalPlanner.topup_rate) ^ n - 1) / GoalPlanner.topup_rate)
         == GoalPlanner.gap m.
Proof.
  intros Date_parse today st sim g final t Hs Hg Hlast Hdate Hshort.
  destruct (calculateMonths_valid Date_parse today _ _ Hdate) as (n & Hn & Hn1).
  unfold GoalPlanner.getScenarioMetrics. rewrite Hs, Hg, Hlast, Hn.
  eexists. exists n. split; [reflexivity|]. split; [reflexivity|].
  cbn [GoalPlanner.gap GoalPlanner.monthlyNeeded]. unfold Math_max.
  set (gp := Qmax 0 (target_amount g - amount final)).
  assert (Hgap : 0 < gp).
  { apply Qlt_le_trans with (target_amount g - amount final).
    - apply Qlt_minus_iff in Hshort. exact Hshort.
    - apply Q.le_max_r. }
  pose proof (topup_growth_pos n Hn1) as Hpos.
  pose proof topup_rate_pos as Hr.
  rewrite (monthlyTopUp_formula gp n Hgap Hn1).
  set (r := GoalPlanner.topup_rate) in *.
  set (gr := (1 + r) ^ n - 1) in *.
  assert (Hg0 : ~ gr == 0).
  { intro E. rewrite E in Hpos. discriminate Hpos. }
  assert (Hr0 : ~ r == 0).
  { intro E. rewrite E in Hr. discriminate Hr. }
  assert (Hrg : r <= gr).
  { unfold gr. apply (Qplus_le_l _ _ 1).
    setoid_replace ((1 + r) ^ n - 1 + 1) with ((1 + r) ^ n) by ring.
    setoid_replace (r + 1) with (1 + r) by ring.
    apply Qpower_ge_base; [reflexivity | exact Hn1]. }
  split; [|split].
  - apply Qlt_shift_div_l; [exact Hpos|]. rewrite Qmult_0_l.
    apply Qmult_lt_0_compat; assumption.
  - apply Qle_shift_div_r; [exact Hpos|].
    apply Qmult_le_l; [exact Hgap | exact Hrg].
  - field. split; assumption.
Qed.

Lemma monthly_top_up_witness :
  exists (m : GoalPlanner.Metrics) (n : Z),
    GoalPlanner.getScenarioMetrics Examples.dates Examples.today
      (Examples.planner "2030-01-01" ViewWorst) = Returns m
    /\ GoalService.calculateMonths Examples.dates Examples.today "2030-01-01"
       = Some n
    /\ 0 < GoalPlanner.monthlyNeeded m
    /\ GoalPlanner.monthlyNeeded m <= GoalPlanner.gap m
    /\ GoalPlanner.monthlyNeeded m
       * (((1 + GoalPlanner.topup_rate) ^ n - 1) / GoalPlanner.topup_rate)
       == GoalPlanner.gap m.
Proof.
  apply (monthly_top_up_closes_the_gap Examples.dates Examples.today
           (Examples.planner "2030-01-01" ViewWorst) Examples.sim
           (Examples.house "2030-01-01") (Examples.projection 2 40000)
           1893456000000%Z);
    reflexivity.
Defined.

(** X6: the scenario card is "good" exactly when the scenario's final amount
    reaches the target; otherwise the gap shown is the plain difference
    target - final, and it is positive. *)
Theorem scenario_is_good_iff_target_reached :
  forall (Date_parse : string -> option Z) (today : Z)
         (st : GoalPlanner.State) (sim : SimulationResult) (g : GoalBase)
         (final : YearlyProjection),
    GoalPlanner.simulation st = Some sim ->
    GoalPlanner.goal st = Some g ->
    last (map Some (scenario_of (scenarios sim) (GoalPlanner.scenarioView st)))
         None = Some final ->
    exists (m : GoalPlanner.Metrics) (good : bool),
      GoalPlanner.getScenarioMetrics Date_parse today st = Returns m
      /\ GoalPlanner.isScenarioGood m = Some good
      /\ GoalPlanner.metric_amount m = amount final
      /\ (good = true <-> target_amount g <= amount final)
      /\ (good = false ->
          0 < GoalPlanner.gap m
          /\ GoalPlanner.gap m == target_amount g - amount final).
Proof.
  intros Date_parse today st sim g final Hs Hg Hlast.
  unfold GoalPlanner.getScenarioMetrics. rewrite Hs, Hg, Hlast.
  eexists. eexists. split; [reflexivity|]. split; [reflexivity|].
  cbn [GoalPlanner.gap GoalPlanner.metric_amount]. split; [reflexivity|].
  unfold Math_max, Qleb.
  set (d := target_amount g - amount final).
  assert (Hd : d <= 0 <-> target_amount g <= amount final).
  { unfold d. split; intro H.
    - apply (Qplus_le_l _ _ (- amount final)).
      setoid_replace (amount final + - amount final) with 0 by ring.
      exact H.
    - apply (Qplus_le_l _ _ (amount final)).
      setoid_replace (target_amount g - amount final + amount final)
        with (target_amount g) by ring.
      rewrite Qplus_0_l. exact H. }
  split.
  - rewrite Qle_bool_iff, <- Hd. split; intro H.
    + apply Qle_trans with (Qmax 0 d); [apply Q.le_max_r | exact H].
    + rewrite (Q.max_l 0 d H). apply Qle_refl.
  - intro Hbad.
    assert (Hpos : 0 < d).
    { apply Qnot_le_lt. intro Hle.
      assert (Hgood : Qle_bool (Qmax 0 d) 0 = true).
      { apply Qle_bool_iff. rewrite (Q.max_l 0 d Hle). apply Qle_refl. }
      congruence. }
    assert (Hmax : Qmax 0 d == d).
    { apply Q.max_r. apply Qlt_le_weak. exact Hpos. }
    rewrite Hmax. split; [exact Hpos | reflexivity].
Qed.

Lemma scenario_is_good_witness :
  exists (m : GoalPlanner.Metrics) (good : bool),
    GoalPlanner.getScenarioMetrics Examples.dates Examples.today
      (Examples.planner "2030-01-01" ViewBest) = Returns m
    /\ GoalPlanner.isScenarioGood m = Some good
    /\ GoalPlanner.metric_amount m = 60000
    /\ (good = true <-> 50000 <= 60000)
    /\ (good = false ->
        0 < GoalPlanner.gap m /\ GoalPlanner.gap m == 50000 - 60000).
Proof.
  apply (scenario_is_good_iff_target_reached Examples.dates Examples.today
           (Examples.planner "2030-01-01" ViewBest) Examples.sim
           (Examples.house "2030-01-01") (Examples.projection 2 60000));
    reflexivity.
Defined.

(** X7: the percentage handed to the gauge is the success probability
    rounded to a whole percent; for a probability in [0,1] it lies in
    [0,100], whatever the scenario selected. *)
Theorem probability_is_a_percentage :
  forall (Date_parse : string -> option Z) (today : Z)
         (st : GoalPlanner.State) (sim : SimulationResult) (g : GoalBase)
         (final : YearlyProjection),
    GoalPlanner.simulation st = Some sim ->
    GoalPlanner.goal st = Some g ->
    last (map Some (scenario_of (scenarios sim) (GoalPlanner.scenarioView st)))
         None = Some final ->
    0 <= success_probability sim ->
    success_probability sim <= 1 ->
    exists m : GoalPlanner.Metrics,
      GoalPlanner.getScenarioMetrics Date_parse today st = Returns m
      /\ GoalPlanner.probability m
         = Qfloor (success_probability sim * 100 + (1 # 2))
      /\ (0 <= GoalPlanner.probability m <= 100)%Z.
Proof.
  intros Date_parse today st sim g final Hs Hg Hlast H0 H1.
  unfold GoalPlanner.getScenarioMetrics. rewrite Hs, Hg, Hlast.
  eexists. split; [reflexivity|]. cbn [GoalPlanner.probability].
  unfold Math_round. split; [reflexivity|]. split.
  - change 0%Z with (Qfloor (0 * 100 + (1 # 2))).
    apply Qfloor_resp_le. apply Qplus_le_l.
    apply Qmult_le_compat_r; [exact H0 | discriminate].
  - change 100%Z with (Qfloor (1 * 100 + (1 # 2))).
    apply Qfloor_resp_le. apply Qplus_le_l.
    apply Qmult_le_compat_r; [exact H1 | discriminate].
Qed.

Lemma probability_witness :
  exists m : GoalPlanner.Metrics,
    GoalPlanner.getScenarioMetrics Examples.dates Examples.today
      (Examples.planner "2030-01-01" ViewMedian) = Returns m
    /\ GoalPlanner.probability m = Qfloor ((62 # 100) * 100 + (1 # 2))
    /\ (0 <= GoalPlanner.probability m <= 100)%Z.
Proof.
  apply (probability_is_a_percentage Examples.dates Examples.today
           (Examples.planner "2030-01-01" ViewMedian) Examples.sim
           (Examples.house "2030-01-01") (Examples.projection 2 48000));
    try reflexivity; discriminate.
Defined.

(** X8: moving the contribution slider never rewrites the baseline goal.
    When the debounce timer fires and there is no goal or no simulation, or
    the slider equals the goal's monthly contribution, nothing is sent and
    the state is unchanged.  When goal and simulation exist and the slider
    differs, exactly the goal with [monthly_contribution] replaced by the
    slider value is sent; a returned result replaces the simulation and
    nothing else, a rejected request changes nothing. *)
Theorem slider_keeps_the_baseline_goal :
  forall (simulateGoal : GoalBase -> outcome SimulationResult)
         (st : GoalPlanner.State),
    match GoalPlanner.goal st, GoalPlanner.simulation st with
    | Some g, Some _ =>
        let sent := {| name := name g;
                       target_amount := target_amount g;
                       target_date := target_date g;
                       current_savings := current_savings g;
                       monthly_contribution := GoalPlanner.simMonthly st;
                       risk_profile := risk_profile g |} in
        (GoalPlanner.simMonthly st == monthly_contribution g ->
         GoalPlanner.sliderEffect simulateGoal st = (st, None))
        /\ (~ GoalPlanner.simMonthly st == monthly_contribution g ->
            snd (GoalPlanner.sliderEffect simulateGoal st) = Some sent
            /\ fst (GoalPlanner.sliderEffect simulateGoal st)
               = match simulateGoal sent with
                 | Returns res =>
                     {| GoalPlanner.goal := Some g;
                        GoalPlanner.simulation := Some res;
                        GoalPlanner.loading := GoalPlanner.loading st;
                        GoalPlanner.simMonthly := GoalPlanner.simMonthly st;
                        GoalPlanner.scenarioView :=
                          GoalPlanner.scenarioView st |}
                 | Throws _ => st
                 end)
    | _, _ => GoalPlanner.sliderEffect simulateGoal st = (st, None)
    end
    /\ GoalPlanner.goal (fst (GoalPlanner.sliderEffect simulateGoal st))
       = GoalPlanner.goal st
    /\ GoalPlanner.simMonthly (fst (GoalPlanner.sliderEffect simulateGoal st))
       = GoalPlanner.simMonthly st
    /\ GoalPlanner.scenarioView
         (fst (GoalPlanner.sliderEffect simulateGoal st))
       = GoalPlanner.scenarioView st
    /\ GoalPlanner.loading (fst (GoalPlanner.sliderEffect simulateGoal st))
       = GoalPlanner.loading st.
Proof.
  intros simulateGoal st.
  unfold GoalPlanner.sliderEffect.
  destruct (GoalPlanner.goal st) as [g|] eqn:Hg;
    [|cbn [fst snd]; rewrite ?Hg; repeat split].
  destruct (GoalPlanner.simulation st) as [sim|] eqn:Hs;
    [|cbn [fst snd]; rewrite ?Hg; repeat split].
  destruct (Qeq_bool (GoalPlanner.simMonthly st) (monthly_contribution g))
    eqn:Heq; cbv zeta.
  - split; [split|].
    + intros _. reflexivity.
    + intro Hne. exfalso. apply Hne. apply Qeq_bool_iff. exact Heq.
    + cbn [fst snd]. rewrite ?Hg. repeat split.
  - assert (Hne : ~ GoalPlanner.simMonthly st == monthly_contribution g).
    { intro Hq. apply Qeq_bool_iff in Hq. congruence. }
    split; [split|].
    + intro Hq. exfalso. exact (Hne Hq).
    + intros _. destruct (simulateGoal _); split; reflexivity.
    + destruct (simulateGoal _); cbn; rewrite ?Hg; repeat split.
Qed.

Lemma slider_witness :
  snd (GoalPlanner.sliderEffect (fun _ => Returns Examples.sim)
         (GoalPlanner.setSimMonthly
            (Examples.planner "2030-01-01" ViewMedian) 650))
  = Some {| name := "House"; target_amount := 50000;
            target_date := "2030-01-01"; current_savings := 5000;
            monthly_contribution := 650;
            risk_profile := Some "Moderate" |}
  /\ fst (GoalPlanner.sliderEffect (fun _ => Returns Examples.sim)
            (GoalPlanner.setSimMonthly
               (Examples.planner "2030-01-01" ViewMedian) 650))
     = {| GoalPlanner.goal := Some (Examples.house "2030-01-01");
          GoalPlanner.simulation := Some Examples.sim;
          GoalPlanner.loading := false;
          GoalPlanner.simMonthly := 650;
          GoalPlanner.scenarioView := ViewMedian |}.
Proof.
  apply (proj2 (proj1 (slider_keeps_the_baseline_goal
                         (fun _ => Returns Examples.sim)
                         (GoalPlanner.setSimMonthly
                            (Examples.planner "2030-01-01" ViewMedian) 650)))).
  intro H. discriminate H.
Defined.

(** ** The SSE hook, continued *)

Section SSEMore.

Variable TResult : Type.
Variable JSON_parse : string -> option (SSE.SSEMessage TResult).
Variable DecoderState : Type.
Variable decoder_step : DecoderState -> Byte.byte -> DecoderState * string.

Local Abbreviation stream := (SSE.stream JSON_parse decoder_step).
Local Abbreviation readChunks := (SSE.readChunks JSON_parse decoder_step).
Local Abbreviation lines_of :=
  (fun d0 values =>
     SSE.complete_lines (SSE.decoded_text decoder_step d0 values)).
Local Abbreviation events :=
  (fun d0 values => SSE.events_of JSON_parse (lines_of d0 values)).

(** The run of [stream] over a body that ends normally. *)
Lemma stream_body_done autoReset d0 prev values :
  stream autoReset d0 prev (SSE.Body values SSE.Done)
  = fold_left (SSE.processLine JSON_parse) (lines_of d0 values)
      {| SSE.hook := SSE.startStream autoReset prev;
         SSE.resultData := None; SSE.effects := [] |}.
Proof.
  unfold SSE.stream.
  pose proof (readChunks_lines TResult JSON_parse DecoderState decoder_step
                d0 {| SSE.hook := SSE.startStream autoReset prev;
                      SSE.resultData := None; SSE.effects := [] |} values)
    as H.
  destruct (SSE.readChunks _ _ _ _) as [rd r]. exact H.
Qed.

Lemma stream_body_fails autoReset d0 prev values err :
  stream autoReset d0 prev (SSE.Body values (SSE.ReadFails err))
  = SSE.catchError
      (stream autoReset d0 prev (SSE.Body values SSE.Done)) err.
Proof.
  unfold SSE.stream. destruct (SSE.readChunks _ _ _ _) as [rd r].
  reflexivity.
Qed.

Lemma readChunks_buffer d0 (r0 : SSE.Run TResult) values :
  SSE.messageBuffer
    (fst (readChunks ({| SSE.decoder := d0; SSE.messageBuffer := "" |}, r0)
                     values))
  = last (SSE.split_newline (SSE.decoded_text decoder_step d0 values)) "".
Proof.
  rewrite readChunks_concat by reflexivity.
  unfold SSE.readChunk, SSE.decoded_text.
  cbn [SSE.decoder SSE.messageBuffer].
  destruct (SSE.decode decoder_step d0 (List.concat values)) as [d1 c1].
  reflexivity.
Qed.

Lemma no_terminal_hook (evs : list (SSE.SSEMessage TResult)) h :
  existsb (@SSE.is_complete TResult) evs = false ->
  existsb (@SSE.is_error TResult) evs = false ->
  SSE.isStreaming (fold_left (@SSE.message_hook TResult) evs h)
  = SSE.isStreaming h
  /\ SSE.error (fold_left (@SSE.message_hook TResult) evs h) = SSE.error h.
Proof.
  revert h. induction evs as [|m evs IH]; intros h Hc He; [split; reflexivity|].
  cbn in Hc, He. apply orb_false_iff in Hc, He.
  destruct Hc as [Hc Hcs], He as [He Hes].
  cbn [fold_left]. destruct (IH (SSE.message_hook h m) Hcs Hes) as [H1 H2].
  rewrite H1, H2. destruct m as [ty msg dat p].
  unfold SSE.is_complete, SSE.is_error in Hc, He. cbn in Hc, He.
  unfold SSE.message_hook. cbn.
  destruct ty; try discriminate; split; reflexivity.
Qed.

Lemma no_complete_hook_result (evs : list (SSE.SSEMessage TResult)) h :
  existsb (@SSE.is_complete TResult) evs = false ->
  SSE.result (fold_left (@SSE.message_hook TResult) evs h) = SSE.result h.
Proof.
  revert h. induction evs as [|m evs IH]; intros h Hc; [reflexivity|].
  cbn in Hc. apply orb_false_iff in Hc. destruct Hc as [Hc Hcs].
  cbn [fold_left]. rewrite (IH _ Hcs). destruct m as [ty msg dat p].
  unfold SSE.is_complete in Hc. cbn in Hc.
  unfold SSE.message_hook. cbn.
  destruct ty; try discriminate; reflexivity.
Qed.

Lemma logs_extend (evs : list (SSE.SSEMessage TResult)) h :
  exists suffix : list string,
    SSE.logs (fold_left (@SSE.message_hook TResult) evs h)
    = (SSE.logs h ++ suffix)%list.
Proof.
  revert h. induction evs as [|m evs IH]; intro h.
  - exists []. cbn. now rewrite app_nil_r.
  - cbn [fold_left]. destruct (IH (SSE.message_hook h m)) as [suf Hsuf].
    rewrite Hsuf. destruct m as [ty msg dat p].
    unfold SSE.message_hook. cbn.
    destruct ty; cbn; try (eexists; rewrite <- app_assoc; reflexivity).
    exists suf. reflexivity.
Qed.

(** X9: text after the last newline is never handled.  When the body ends
    ([done]) the loop breaks without looking at [messageBuffer], so a body
    without any newline - even a whole event - leaves the run as it
    started. *)
Theorem unterminated_line_is_never_handled :
  forall (autoReset : bool) (d0 : DecoderState)
         (prev : SSE.HookState TResult) (values : list (list Byte.byte)),
    SSE.split_newline (SSE.decoded_text decoder_step d0 values)
    = [SSE.decoded_text decoder_step d0 values] ->
    stream autoReset d0 prev (SSE.Body values SSE.Done)
    = {| SSE.hook := SSE.startStream autoReset prev;
         SSE.resultData := None; SSE.effects := [] |}.
Proof.
  intros autoReset d0 prev values H.
  rewrite stream_body_done. unfold SSE.complete_lines. rewrite H.
  reflexivity.
Qed.

(** X10: a body that ends without a complete or an error event leaves
    [isStreaming] true: nothing after the loop resets it.  No error is
    recorded and [stream] returns null. *)
Theorem stream_without_terminal_event_stays_streaming :
  forall (autoReset : bool) (d0 : DecoderState)
         (prev : SSE.HookState TResult) (values : list (list Byte.byte)),
    existsb (@SSE.is_complete TResult) (events d0 values) = false ->
    existsb (@SSE.is_error TResult) (events d0 values) = false ->
    let r := stream autoReset d0 prev (SSE.Body values SSE.Done) in
    SSE.isStreaming (SSE.hook r) = true
    /\ SSE.error (SSE.hook r) = None
    /\ SSE.resultData r = None
    /\ filter (@SSE.is_call_complete TResult) (SSE.effects r) = []
    /\ filter (@SSE.is_call_error TResult) (SSE.effects r) = [].
Proof.
  intros autoReset d0 prev values Hc He r. subst r.
  rewrite stream_body_done.
  destruct (fold_processLine TResult JSON_parse (lines_of d0 values)
              {| SSE.hook := SSE.startStream autoReset prev;
                 SSE.resultData := None; SSE.effects := [] |})
    as (Hh & Hd & Hf).
  rewrite Hh, Hd, !Hf by (intro; reflexivity). cbn [SSE.hook SSE.resultData SSE.effects].
  destruct (no_terminal_hook _ (SSE.startStream autoReset prev) Hc He)
    as [H1 H2].
  rewrite H1, H2, (no_complete_result TResult _ None Hc).
  rewrite (no_complete_calls TResult _ Hc), (no_error_calls TResult _ He).
  destruct autoReset; repeat split.
Qed.

(** X11: a failure of [reader.read()] in the middle of the body does not
    discard what was received: [stream] still returns the data of an
    earlier complete event and the result in the state is kept.  A
    cancellation records no error and calls no callback; any other failure
    records its message and calls [onError] once more. *)
Theorem read_failure_keeps_received_result :
  forall (autoReset : bool) (d0 : DecoderState)
         (prev : SSE.HookState TResult) (values : list (list Byte.byte))
         (err : SSE.JsError),
    let ok := stream autoReset d0 prev (SSE.Body values SSE.Done) in
    let r := stream autoReset d0 prev
               (SSE.Body values (SSE.ReadFails err)) in
    SSE.resultData r = SSE.resultData ok
    /\ SSE.result (SSE.hook r) = SSE.result (SSE.hook ok)
    /\ SSE.st_progress (SSE.hook r) = SSE.st_progress (SSE.hook ok)
    /\ SSE.isStreaming (SSE.hook r) = false
    /\ match err with
       | SSE.AbortError =>
           SSE.error (SSE.hook r) = SSE.error (SSE.hook ok)
           /\ SSE.effects r = SSE.effects ok
           /\ SSE.logs (SSE.hook r)
              = (SSE.logs (SSE.hook ok) ++ ["⚠️ Cancelled"])%list
       | SSE.ErrorWith msg =>
           SSE.error (SSE.hook r) = Some msg
           /\ SSE.effects r
              = (SSE.effects ok ++ [SSE.CallOnError TResult msg])%list
           /\ SSE.logs (SSE.hook r)
              = (SSE.logs (SSE.hook ok) ++ [("❌ " ++ msg)%string])%list
       | SSE.NonError =>
           SSE.error (SSE.hook r) = Some "Connection failed"
           /\ SSE.effects r
              = (SSE.effects ok
                 ++ [SSE.CallOnError TResult "Connection failed"])%list
           /\ SSE.logs (SSE.hook r)
              = (SSE.logs (SSE.hook ok) ++ ["❌ Connection failed"])%list
       end.
Proof.
  intros autoReset d0 prev values err ok r. subst r.
  rewrite stream_body_fails. fold ok.
  destruct err; cbn; repeat split.
Qed.

(** X12: a run never loses the previous result unless it was asked to
    ([autoReset]) or a complete event arrives: for a failed request, and for
    a body without complete event however it ends, the result in the state
    is the previous one (null under [autoReset]). *)
Theorem previous_result_survives_without_complete :
  forall (autoReset : bool) (d0 : DecoderState)
         (prev : SSE.HookState TResult) (response : SSE.FetchResult),
    match response with
    | SSE.Body values _ =>
        existsb (@SSE.is_complete TResult) (events d0 values) = false
    | _ => True
    end ->
    SSE.result (SSE.hook (stream autoReset d0 prev response))
    = if autoReset then None else SSE.result prev.
Proof.
  intros autoReset d0 prev response H.
  assert (Hstart : SSE.result (SSE.startStream autoReset prev)
                   = if autoReset then None else SSE.result prev).
  { destruct autoReset; reflexivity. }
  assert (Hcatch : forall (r : SSE.Run TResult) err,
             SSE.result (SSE.hook (SSE.catchError r err))
             = SSE.result (SSE.hook r)).
  { intros r []; reflexivity. }
  destruct response as [err|status| |values ending].
  - unfold SSE.stream. rewrite Hcatch. exact Hstart.
  - unfold SSE.stream. rewrite Hcatch. exact Hstart.
  - unfold SSE.stream. rewrite Hcatch. exact Hstart.
  - assert (Hdone : SSE.result
                      (SSE.hook (stream autoReset d0 prev
                                   (SSE.Body values SSE.Done)))
                    = if autoReset then None else SSE.result prev).
    { rewrite stream_body_done.
      destruct (fold_processLine TResult JSON_parse (lines_of d0 values)
                  {| SSE.hook := SSE.startStream autoReset prev;
                     SSE.resultData := None; SSE.effects := [] |})
        as (Hh & _ & _).
      rewrite Hh. cbn [SSE.hook].
      rewrite (no_complete_hook_result _ _ H). exact Hstart. }
    destruct ending as [|err]; [exact Hdone|].
    rewrite stream_body_fails, Hcatch. exact Hdone.
Qed.

(** X13: without [autoReset] the log is append-only over a call of
    [stream]: whatever the response, the log afterwards starts with the
    log before. *)
Theorem stream_log_is_append_only :
  forall (d0 : DecoderState) (prev : SSE.HookState TResult)
         (response : SSE.FetchResult),
    exists suffix : list string,
      SSE.logs (SSE.hook (stream false d0 prev response))
      = (SSE.logs prev ++ suffix)%list.
Proof.
  intros d0 prev response.
  assert (Hcatch : forall (r : SSE.Run TResult) err,
             exists one, SSE.logs (SSE.hook (SSE.catchError r err))
                         = (SSE.logs (SSE.hook r) ++ [one])%list).
  { intros r []; eexists; reflexivity. }
  assert (Hdone : forall values,
             exists suffix,
               SSE.logs (SSE.hook (stream false d0 prev
                                     (SSE.Body values SSE.Done)))
               = (SSE.logs prev ++ suffix)%list).
  { intro values. rewrite stream_body_done.
    destruct (fold_processLine TResult JSON_parse (lines_of d0 values)
                {| SSE.hook := SSE.startStream false prev;
                   SSE.resultData := None; SSE.effects := [] |})
      as (Hh & _ & _).
    rewrite Hh. cbn [SSE.hook].
    apply (logs_extend _ (SSE.startStream false prev)). }
  destruct response as [err|status| |values ending].
  - unfold SSE.stream. destruct (Hcatch
      {| SSE.hook := SSE.startStream false prev; SSE.resultData := None;
         SSE.effects := [] |} err) as [one H].
    exists [one]. exact H.
  - unfold SSE.stream. destruct (Hcatch
      {| SSE.hook := SSE.startStream false prev; SSE.resultData := None;
         SSE.effects := [] |}
      (SSE.ErrorWith ("HTTP error! status: " ++ SSE.status_text status)))
      as [one H].
    exists [one]. exact H.
  - unfold SSE.stream. destruct (Hcatch
      {| SSE.hook := SSE.startStream false prev; SSE.resultData := None;
         SSE.effects := [] |} (SSE.ErrorWith "No response body")) as [one H].
    exists [one]. exact H.
  - destruct ending as [|err]; [apply Hdone|].
    rewrite stream_body_fails.
    destruct (Hcatch (stream false d0 prev (SSE.Body values SSE.Done)) err)
      as [one H].
    destruct (Hdone values) as [suffix Hs].
    exists (suffix ++ [one])%list. rewrite H, Hs, app_assoc. reflexivity.
Qed.

End SSEMore.

Lemma join_split_newline (s : string) :
  fold_right (fun l acc => (l ++ String "010"%char acc)%string)
             (last (SSE.split_newline s) "")
             (removelast (SSE.split_newline s))
  = s.
Proof.
  induction s as [|c s IH]; [reflexivity|].
  cbn [SSE.split_newline]. pose proof (split_newline_nonempty s) as Hne.
  destruct (Ascii.eqb c "010"%char) eqn:Ec.
  - apply Ascii.eqb_eq in Ec. subst c.
    destruct (SSE.split_newline s) as [|l ls]; [congruence|].
    cbn [removelast last fold_right]. cbn [append].
    f_equal. exact IH.
  - destruct (SSE.split_newline s) as [|l ls]; [congruence|].
    destruct ls as [|x ls'].
    + cbn in *. now rewrite IH.
    + cbn [removelast last fold_right] in *. cbn [append]. f_equal.
      exact IH.
Qed.

(** X14: the line buffer loses nothing and holds no newline: after any
    sequence of chunks, the lines handled so far, each followed by its
    newline, followed by [messageBuffer], are exactly the text decoded so
    far. *)
Theorem line_buffer_loses_nothing :
  forall (TResult : Type)
         (JSON_parse : string -> option (SSE.SSEMessage TResult))
         (DecoderState : Type)
         (decoder_step : DecoderState -> Byte.byte -> DecoderState * string)
         (d0 : DecoderState) (r0 : SSE.Run TResult)
         (values : list (list Byte.byte)),
    let rd := fst (SSE.readChunks JSON_parse decoder_step
                     ({| SSE.decoder := d0; SSE.messageBuffer := "" |}, r0)
                     values) in
    let text := SSE.decoded_text decoder_step d0 values in
    fold_right (fun l acc => (l ++ String "010"%char acc)%string)
               (SSE.messageBuffer rd) (SSE.complete_lines text)
    = text
    /\ SSE.split_newline (SSE.messageBuffer rd) = [SSE.messageBuffer rd].
Proof.
  intros TResult JSON_parse DecoderState decoder_step d0 r0 values rd text.
  subst rd text. rewrite readChunks_buffer. split.
  - apply join_split_newline.
  - apply split_newline_last.
Qed.

Lemma unterminated_line_witness :
  SSE.stream Examples.parse Examples.latin1_step false tt
    (SSE.initialState Z) (SSE.Body Examples.unterminated SSE.Done)
  = {| SSE.hook := SSE.startStream false (SSE.initialState Z);
       SSE.resultData := None; SSE.effects := [] |}.
Proof.
  apply (unterminated_line_is_never_handled Z Examples.parse unit
           Examples.latin1_step false tt (SSE.initialState Z)
           Examples.unterminated).
  vm_compute. reflexivity.
Defined.

Lemma stream_without_terminal_event_witness :
  let r := SSE.stream Examples.parse Examples.latin1_step false tt
             (SSE.initialState Z) (SSE.Body Examples.progress_only SSE.Done) in
  SSE.isStreaming (SSE.hook r) = true
  /\ SSE.error (SSE.hook r) = None
  /\ SSE.resultData r = None
  /\ filter (@SSE.is_call_complete Z) (SSE.effects r) = []
  /\ filter (@SSE.is_call_error Z) (SSE.effects r) = [].
Proof.
  apply (stream_without_terminal_event_stays_streaming Z Examples.parse unit
           Examples.latin1_step false tt (SSE.initialState Z)
           Examples.progress_only);
    vm_compute; reflexivity.
Defined.

Lemma previous_result_witness :
  SSE.result
    (SSE.hook
       (SSE.stream Examples.parse Examples.latin1_step false tt
          {| SSE.logs := ["done"]; SSE.isStreaming := false;
             SSE.result := Some 3%Z; SSE.error := None;
             SSE.st_progress := Some 100 |}
          (SSE.Body Examples.progress_only (SSE.ReadFails SSE.AbortError))))
  = Some 3%Z.
Proof.
  apply (previous_result_survives_without_complete Z Examples.parse unit
           Examples.latin1_step false tt
           {| SSE.logs := ["done"]; SSE.isStreaming := false;
              SSE.result := Some 3%Z; SSE.error := None;
              SSE.st_progress := Some 100 |}
           (SSE.Body Examples.progress_only (SSE.ReadFails SSE.AbortError))).
  vm_compute. reflexivity.
Defined.

(** ** Portfolio page, continued *)

(** X15: [generateColors] returns exactly [count] colours, each taken from
    the palette, and repeats with the palette's period of 17. *)
Theorem generateColors_cycles_through_palette :
  forall count : nat,
    List.length (Portfolio.generateColors count) = count
    /\ Forall (fun c => In c Portfolio.palette)
              (Portfolio.generateColors count)
    /\ forall i : nat,
         (i + 17 < count)%nat ->
         nth_error (Portfolio.generateColors count) (i + 17)
         = nth_error (Portfolio.generateColors count) i.
Proof.
  intro count. unfold Portfolio.generateColors. split; [|split].
  - rewrite length_map, length_seq. reflexivity.
  - apply Forall_forall. intros c Hc. apply in_map_iff in Hc.
    destruct Hc as (i & <- & _). apply nth_In.
    apply Nat.mod_upper_bound. discriminate.
  - intros i Hi.
    rewrite !nth_error_map.
    rewrite !nth_error_nth' with (d := 0%nat) by (rewrite length_seq; lia).
    rewrite !seq_nth by lia. cbn [option_map Nat.add].
    change (List.length Portfolio.palette) with 17%nat.
    replace (i + 17)%nat with (i + 1 * 17)%nat by lia.
    rewrite Nat.Div0.mod_add. reflexivity.
Qed.

Section PortfolioMore.

Variables Details TableRow Sentiment : Type.
Variable post_optimize :
  Portfolio.OptimizeRequest ->
  outcome (Portfolio.OptimizeResponse Details TableRow Sentiment).
Variable post_monte_carlo :
  Portfolio.MonteCarloRequest -> outcome Portfolio.MCData.

Local Abbreviation handleOptimize :=
  (Portfolio.handleOptimize post_optimize post_monte_carlo).
Local Abbreviation request_of :=
  (fun st : Portfolio.State Details TableRow Sentiment =>
     {| Portfolio.opt_risk_tolerance := nth_error (Portfolio.risk st) 0;
        Portfolio.opt_investment_amount := Portfolio.amount st;
        Portfolio.opt_investment_horizon := Portfolio.horizon st;
        Portfolio.opt_num_assets := Portfolio.assets st |}).

(** X16: when the optimize request is rejected, no monte_carlo request is
    sent and one alert is shown; the previous result, table and beta stay,
    but the previous simulation data and sentiment are gone: they were
    cleared before the request. *)
Theorem failed_optimize_keeps_result_but_clears_simulation :
  forall (st : Portfolio.State Details TableRow Sentiment) (e : string),
    post_optimize (request_of st) = Throws e ->
    let st' := fst (handleOptimize st) in
    let eff := snd (handleOptimize st) in
    Portfolio.result st' = Portfolio.result st
    /\ Portfolio.tableData st' = Portfolio.tableData st
    /\ Portfolio.beta st' = Portfolio.beta st
    /\ Portfolio.mcData st' = None
    /\ Portfolio.sentiment st' = None
    /\ Portfolio.loading st' = false
    /\ filter (@Portfolio.is_request) eff
       = [Portfolio.PostOptimize (request_of st)]
    /\ filter (@Portfolio.is_alert) eff
       = [Portfolio.Alert "Optimization failed. Please check backend."].
Proof.
  intros st e H st' eff. subst st' eff.
  unfold Portfolio.handleOptimize. rewrite H. cbn. repeat split.
Qed.

(** X17: a response without [results], or whose results lack
    [portfolio_config], is stored as it is (result, table, beta, sentiment)
    before the configuration is read; reading it throws, so the user gets
    the failure alert and no monte_carlo request is sent. *)
Theorem malformed_response_is_stored_then_reported :
  forall (st : Portfolio.State Details TableRow Sentiment)
         (resp : Portfolio.OptimizeResponse Details TableRow Sentiment),
    post_optimize (request_of st) = Returns resp ->
    match Portfolio.results resp with
    | Some res => Portfolio.portfolio_config res = None
    | None => True
    end ->
    let st' := fst (handleOptimize st) in
    let eff := snd (handleOptimize st) in
    Portfolio.result st' = Portfolio.results resp
    /\ Portfolio.tableData st' = Portfolio.table_data resp
    /\ Portfolio.beta st' = Portfolio.resp_beta resp
    /\ Portfolio.sentiment st' = Portfolio.resp_sentiment resp
    /\ Portfolio.mcData st' = None
    /\ Portfolio.loading st' = false
    /\ filter (@Portfolio.is_request) eff
       = [Portfolio.PostOptimize (request_of st)]
    /\ filter (@Portfolio.is_alert) eff
       = [Portfolio.Alert "Optimization failed. Please check backend."].
Proof.
  intros st resp H Hbad st' eff. subst st' eff.
  unfold Portfolio.handleOptimize. rewrite H.
  destruct (Portfolio.results resp) as [[pc det]|].
  - cbn in Hbad. subst pc. cbn. repeat split.
  - cbn. repeat split.
Qed.

(** X18: when optimize succeeds and the monte_carlo request is rejected,
    the optimizer's output is kept on the page, the simulation data stays
    null, both loading flags are cleared, and no alert is shown: the failure
    is only logged. *)
Theorem failed_monte_carlo_is_silent :
  forall (st : Portfolio.State Details TableRow Sentiment)
         (resp : Portfolio.OptimizeResponse Details TableRow Sentiment)
         (res : Portfolio.Results Details) (cfg : Portfolio.PortfolioConfig)
         (e : string),
    post_optimize (request_of st) = Returns resp ->
    Portfolio.results resp = Some res ->
    Portfolio.portfolio_config res = Some cfg ->
    post_monte_carlo
      {| Portfolio.mc_weights := Portfolio.weights cfg;
         Portfolio.mc_investment_amount := Portfolio.amount st;
         Portfolio.mc_investment_horizon := Portfolio.horizon st;
         Portfolio.mc_tickers := Portfolio.selected_assets cfg |}
    = Throws e ->
    let st' := fst (handleOptimize st) in
    let eff := snd (handleOptimize st) in
    Portfolio.result st' = Some res
    /\ Portfolio.tableData st' = Portfolio.table_data resp
    /\ Portfolio.sentiment st' = Portfolio.resp_sentiment resp
    /\ Portfolio.mcData st' = None
    /\ Portfolio.loading st' = false
    /\ Portfolio.mcLoading st' = false
    /\ filter (@Portfolio.is_alert) eff = [].
Proof.
  intros st resp res cfg e H Hres Hcfg Hmc st' eff. subst st' eff.
  unfold Portfolio.handleOptimize. rewrite H, Hres.
  destruct res as [pc det]. cbn in Hcfg. subst pc.
  unfold Portfolio.runMonteCarlo. cbn [Portfolio.amount Portfolio.horizon].
  rewrite Hmc. cbn. repeat split.
Qed.

(** X19: whatever the two requests do, [handleOptimize] leaves the inputs
    (risk, amount, horizon, assets) alone, ends with [loading] false, sends
    the optimize request first, and sends at most two requests. *)
Theorem handleOptimize_frame :
  forall st : Portfolio.State Details TableRow Sentiment,
    let st' := fst (handleOptimize st) in
    let eff := snd (handleOptimize st) in
    Portfolio.risk st' = Portfolio.risk st
    /\ Portfolio.amount st' = Portfolio.amount st
    /\ Portfolio.horizon st' = Portfolio.horizon st
    /\ Portfolio.assets st' = Portfolio.assets st
    /\ Portfolio.loading st' = false
    /\ hd_error (filter (@Portfolio.is_request) eff)
       = Some (Portfolio.PostOptimize (request_of st))
    /\ (List.length (filter (@Portfolio.is_request) eff) <= 2)%nat.
Proof.
  intros st st' eff. subst st' eff.
  unfold Portfolio.handleOptimize.
  destruct (post_optimize _) as [resp|e]; [|cbn; repeat split; lia].
  destruct (Portfolio.results resp) as [[[cfg|] det]|];
    try (cbn; repeat split; lia).
  unfold Portfolio.runMonteCarlo.
  destruct (post_monte_carlo _); cbn; repeat split; lia.
Qed.

(** X20: the chart of the simulation has one dataset per sample path, one
    per percentile band and, last, the flat "Initial Investment" line, which
    has one point per label, all equal to the first point of the median band
    when there is one and to the invested amount otherwise. *)
Theorem lineData_shape :
  forall (st : Portfolio.State Details TableRow Sentiment)
         (mc : Portfolio.MCData),
    Portfolio.mcData st = Some mc ->
    exists (datasets : list Portfolio.Dataset) (flat : Portfolio.Dataset),
      Portfolio.lineData st = Some (Portfolio.time_points mc, datasets)
      /\ List.length datasets
         = (match Portfolio.paths mc with
            | Some ps => List.length ps
            | None => 0
            end
            + match Portfolio.percentile_paths mc with
              | Some pp => List.length pp
              | None => 0
              end
            + 1)%nat
      /\ last datasets flat = flat
      /\ Portfolio.label flat = "Initial Investment"
      /\ List.length (Portfolio.ds_data flat)
         = List.length (Portfolio.time_points mc)
      /\ Forall (fun v =>
                   v = match Portfolio.percentile_paths mc with
                       | Some pp =>
                           match Portfolio.lookup "50" pp with
                           | Some band => nth_error band 0
                           | None => Some (Portfolio.amount st)
                           end
                       | None => Some (Portfolio.amount st)
                       end)
                (Portfolio.ds_data flat).
Proof.
  intros st mc H. unfold Portfolio.lineData. rewrite H.
  eexists. exists (Portfolio.initialDataset mc (Portfolio.amount st)).
  split; [reflexivity|]. split; [|split; [|split; [|split]]].
  - rewrite !length_app. cbn [List.length].
    destruct (Portfolio.paths mc), (Portfolio.percentile_paths mc);
      rewrite ?length_map; cbn [List.length]; lia.
  - rewrite app_assoc. apply last_last.
  - reflexivity.
  - cbn. apply repeat_length.
  - cbn. apply Forall_forall. intros v Hv. apply repeat_spec in Hv.
    subst v. reflexivity.
Qed.

(** X21: the pie chart has one label, one percentage and one colour per
    weight, the percentages are the weights times 100, and they add up to
    100 times the sum of the weights (to 100 when the weights sum to 1). *)
Theorem pieData_percentages :
  forall (st : Portfolio.State Details TableRow Sentiment)
         (res : Portfolio.Results Details) (cfg : Portfolio.PortfolioConfig),
    Portfolio.result st = Some res ->
    Portfolio.portfolio_config res = Some cfg ->
    exists (labels : list string) (data : list Q) (colors : list string),
      Portfolio.pieData st = Some (labels, data, colors)
      /\ labels = map fst (Portfolio.weights cfg)
      /\ List.length data = List.length labels
      /\ List.length colors = List.length labels
      /\ Qsum data == 100 * Qsum (map snd (Portfolio.weights cfg))
      /\ (Qsum (map snd (Portfolio.weights cfg)) == 1 -> Qsum data == 100).
Proof.
  intros st res cfg Hres Hcfg. unfold Portfolio.pieData. rewrite Hres.
  destruct res as [pc det]. cbn in Hcfg. subst pc.
  eexists. eexists. eexists. split; [reflexivity|]. split; [reflexivity|].
  assert (Hsum : Qsum (map (fun kv : string * Q => snd kv * 100)
                           (Portfolio.weights cfg))
                 == 100 * Qsum (map snd (Portfolio.weights cfg))).
  { induction (Portfolio.weights cfg) as [|[k w] l IH]; cbn; [ring|].
    rewrite IH. ring. }
  split; [now rewrite !length_map|].
  split.
  { unfold Portfolio.generateColors. now rewrite !length_map, length_seq. }
  split; [exact Hsum|].
  intro H1. rewrite Hsum, H1. reflexivity.
Qed.

End PortfolioMore.

Lemma failed_optimize_witness :
  let st' := fst (Portfolio.handleOptimize
                    (fun _ => Throws "Network Error")
                    (fun _ => Returns Examples.mc) Examples.showing) in
  let eff := snd (Portfolio.handleOptimize
                    (fun _ => Throws "Network Error")
                    (fun _ => Returns Examples.mc) Examples.showing) in
  Portfolio.result st' = Portfolio.result Examples.showing
  /\ Portfolio.tableData st' = Portfolio.tableData Examples.showing
  /\ Portfolio.beta st' = Portfolio.beta Examples.showing
  /\ Portfolio.mcData st' = None
  /\ Portfolio.sentiment st' = None
  /\ Portfolio.loading st' = false
  /\ filter (@Portfolio.is_request) eff
     = [Portfolio.PostOptimize
          {| Portfolio.opt_risk_tolerance := Some (1 # 2);
             Portfolio.opt_investment_amount := 10000;
             Portfolio.opt_investment_horizon := 10;
             Portfolio.opt_num_assets := 5 |}]
  /\ filter (@Portfolio.is_alert) eff
     = [Portfolio.Alert "Optimization failed. Please check backend."].
Proof.
  apply (failed_optimize_keeps_result_but_clears_simulation unit unit unit
           (fun _ => Throws "Network Error") (fun _ => Returns Examples.mc)
           Examples.showing "Network Error").
  reflexivity.
Defined.

Lemma malformed_response_witness :
  let st' := fst (Portfolio.handleOptimize
                    (fun _ => Returns Examples.malformed)
                    (fun _ => Returns Examples.mc) Examples.showing) in
  let eff := snd (Portfolio.handleOptimize
                    (fun _ => Returns Examples.malformed)
                    (fun _ => Returns Examples.mc) Examples.showing) in
  Portfolio.result st' = Portfolio.results Examples.malformed
  /\ Portfolio.tableData st' = None
  /\ Portfolio.beta st' = None
  /\ Portfolio.sentiment st' = None
  /\ Portfolio.mcData st' = None
  /\ Portfolio.loading st' = false
  /\ filter (@Portfolio.is_request) eff
     = [Portfolio.PostOptimize
          {| Portfolio.opt_risk_tolerance := Some (1 # 2);
             Portfolio.opt_investment_amount := 10000;
             Portfolio.opt_investment_horizon := 10;
             Portfolio.opt_num_assets := 5 |}]
  /\ filter (@Portfolio.is_alert) eff
     = [Portfolio.Alert "Optimization failed. Please check backend."].
Proof.
  apply (malformed_response_is_stored_then_reported unit unit unit
           (fun _ => Returns Examples.malformed)
           (fun _ => Returns Examples.mc) Examples.showing
           Examples.malformed);
    reflexivity.
Defined.

Lemma failed_monte_carlo_witness :
  let st' := fst (Portfolio.handleOptimize
                    (fun _ => Returns Examples.optimized)
                    (fun _ => Throws "timeout") Examples.showing) in
  let eff := snd (Portfolio.handleOptimize
                    (fun _ => Returns Examples.optimized)
                    (fun _ => Throws "timeout") Examples.showing) in
  Portfolio.result st'
  = Some {| Portfolio.portfolio_config := Some Examples.config;
            Portfolio.details := tt |}
  /\ Portfolio.tableData st' = Some [tt; tt]
  /\ Portfolio.sentiment st' = Some tt
  /\ Portfolio.mcData st' = None
  /\ Portfolio.loading st' = false
  /\ Portfolio.mcLoading st' = false
  /\ filter (@Portfolio.is_alert) eff = [].
Proof.
  apply (failed_monte_carlo_is_silent unit unit unit
           (fun _ => Returns Examples.optimized) (fun _ => Throws "timeout")
           Examples.showing Examples.optimized
           {| Portfolio.portfolio_config := Some Examples.config;
              Portfolio.details := tt |} Examples.config "timeout");
    reflexivity.
Defined.

Lemma lineData_shape_witness :
  exists (datasets : list Portfolio.Dataset) (flat : Portfolio.Dataset),
    Portfolio.lineData Examples.showing = Some ([0; 1; 2], datasets)
    /\ List.length datasets = (2 + 3 + 1)%nat
    /\ last datasets flat = flat
    /\ Portfolio.label flat = "Initial Investment"
    /\ List.length (Portfolio.ds_data flat) = 3%nat
    /\ Forall (fun v => v = Some 10000) (Portfolio.ds_data flat).
Proof.
  apply (lineData_shape unit unit unit Examples.showing Examples.mc).
  reflexivity.
Defined.

Lemma pieData_witness :
  exists (labels : list string) (data : list Q) (colors : list string),
    Portfolio.pieData Examples.showing = Some (labels, data, colors)
    /\ labels = ["AAPL"; "MSFT"]
    /\ List.length data = List.length labels
    /\ List.length colors = List.length labels
    /\ Qsum data == 100 * Qsum [6 # 10; 4 # 10]
    /\ (Qsum [6 # 10; 4 # 10] == 1 -> Qsum data == 100).
Proof.
  apply (pieData_percentages unit unit unit Examples.showing
           {| Portfolio.portfolio_config := Some Examples.config;
              Portfolio.details := tt |} Examples.config);
    reflexivity.
Defined.

(** ** Comparison page, continued *)

(** X22: [handleCompare] saves the four inputs to the store before the
    request and keeps the local inputs; the request carries amount, horizon
    and asset count unchanged.  On success the response is stored and the
    step is Complete; on failure the previous comparison stays and the step
    returns to Idle. *)
Theorem handleCompare_saves_inputs :
  forall (ComparisonResponse : Type)
         (post_compare :
            Comparison.CompareRequest -> outcome ComparisonResponse)
         (st : Comparison.State ComparisonResponse),
    let st' := fst (Comparison.handleCompare post_compare st) in
    let req := snd (Comparison.handleCompare post_compare st) in
    Comparison.storedRisk (Comparison.store st') = Comparison.riskTolerance st
    /\ Comparison.storedAmount (Comparison.store st')
       = Comparison.investmentAmount st
    /\ Comparison.storedHorizon (Comparison.store st')
       = Comparison.timeHorizon st
    /\ Comparison.storedAssets (Comparison.store st') = Comparison.numAssets st
    /\ Comparison.riskTolerance st' = Comparison.riskTolerance st
    /\ Comparison.investment_amount req = Comparison.investmentAmount st
    /\ Comparison.investment_horizon req = Comparison.timeHorizon st
    /\ Comparison.num_assets req = Comparison.numAssets st
    /\ match post_compare req with
       | Returns d =>
           Comparison.comparison (Comparison.store st') = Some d
           /\ Comparison.loadingStep st' = Comparison.Complete
       | Throws _ =>
           Comparison.comparison (Comparison.store st')
           = Comparison.comparison (Comparison.store st)
           /\ Comparison.loadingStep st' = Comparison.Idle
       end.
Proof.
  intros C post st st' req. subst st' req.
  unfold Comparison.handleCompare.
  destruct (post (Comparison.compareRequest st)) eqn:E; cbn;
    rewrite E; repeat split.
Qed.

(** ** Backtest page, continued *)

(** X23: [handleBacktest] sends one request built from the portfolio data
    and the selected period; it never changes the period or the portfolio
    data and ends with [loading] false; the stored result is replaced on
    success and kept on failure, where one alert is shown. *)
Theorem handleBacktest_frame :
  forall (BacktestData : Type)
         (post_backtest :
            Backtest.BacktestRequest -> outcome BacktestData)
         (st : Backtest.State BacktestData),
    let st' := fst (Backtest.handleBacktest post_backtest st) in
    let eff := snd (Backtest.handleBacktest post_backtest st) in
    let req :=
      {| Backtest.req_weights := Backtest.weights (Backtest.portfolioData st);
         Backtest.req_tickers := Backtest.tickers (Backtest.portfolioData st);
         Backtest.start_date := Backtest.startDate (Backtest.backtestPeriod st);
         Backtest.end_date := Backtest.endDate (Backtest.backtestPeriod st);
         Backtest.initial_investment :=
           Backtest.investmentAmount (Backtest.portfolioData st) |} in
    filter Backtest.is_request eff = [Backtest.PostBacktest req]
    /\ Backtest.backtestPeriod st' = Backtest.backtestPeriod st
    /\ Backtest.portfolioData st' = Backtest.portfolioData st
    /\ Backtest.clearingCache st' = Backtest.clearingCache st
    /\ Backtest.loading st' = false
    /\ match post_backtest req with
       | Returns d =>
           Backtest.backtestData st' = Some d
           /\ eff = [Backtest.PostBacktest req]
       | Throws _ =>
           Backtest.backtestData st' = Backtest.backtestData st
           /\ In (Backtest.Alert
                    "Backtesting failed. Please try a different date range.")
                 eff
       end.
Proof.
  intros B post st st' eff req. subst st' eff.
  unfold Backtest.handleBacktest. fold req.
  destruct (post req); cbn; repeat split. right. right. left. reflexivity.
Qed.

(** X24: in a metric card a tie is never "better", whichever direction
    counts as better, and the two directions are mirror images; the two
    values are never both better than each other. *)
Theorem metric_card_tie_is_not_better :
  forall (higherIsBetter : bool) (optimized baseline : Q),
    (optimized == baseline ->
     Backtest.isOptimizedBetter higherIsBetter optimized baseline = false)
    /\ Backtest.isOptimizedBetter true optimized baseline
       = Backtest.isOptimizedBetter false baseline optimized
    /\ (Backtest.isOptimizedBetter higherIsBetter optimized baseline = true ->
        Backtest.isOptimizedBetter higherIsBetter baseline optimized = false).
Proof.
  intros hib o b. split; [|split].
  - intro H. unfold Backtest.isOptimizedBetter.
    destruct hib; apply Qgtb_false; rewrite H; apply Qle_refl.
  - reflexivity.
  - unfold Backtest.isOptimizedBetter. destruct hib; intro H;
      apply Qgtb_true in H; apply Qgtb_false; apply Qlt_le_weak; exact H.
Qed.

Lemma Qabs_zero_iff (x : Q) : Qabs x == 0 <-> x == 0.
Proof.
  split; intro H.
  - destruct (Qlt_le_dec x 0) as [Hneg|Hpos].
    + rewrite (Qabs_neg x (Qlt_le_weak _ _ Hneg)) in H.
      setoid_replace x with (- - x) by ring. rewrite H. reflexivity.
    + rewrite (Qabs_pos x Hpos) in H. exact H.
  - rewrite H. reflexivity.
Qed.

(** X25: the relative difference shown in a metric card is undefined for a
    zero baseline and otherwise non-negative, zero exactly when the two
    values are equal, and the same whether optimized lies above or below
    the baseline by the same amount. *)
Theorem metric_card_difference :
  forall (optimized baseline : Q),
    (baseline == 0 -> Backtest.difference optimized baseline = None)
    /\ (~ baseline == 0 ->
        exists d d' : Q,
          Backtest.difference optimized baseline = Some d
          /\ 0 <= d
          /\ (d == 0 <-> optimized == baseline)
          /\ Backtest.difference (baseline - (optimized - baseline)) baseline
             = Some d'
          /\ d' == d).
Proof.
  intros o b. unfold Backtest.difference. split.
  - intro H. apply Qeq_bool_iff in H. rewrite H. reflexivity.
  - intro Hb.
    assert (Hbool : Qeq_bool b 0 = false).
    { destruct (Qeq_bool b 0) eqn:E; [|reflexivity].
      apply Qeq_bool_iff in E. contradiction. }
    rewrite Hbool.
    assert (Habs : ~ Qabs b == 0).
    { intro H. apply Hb. apply Qabs_zero_iff. exact H. }
    eexists. eexists. split; [reflexivity|]. split; [apply Qabs_nonneg|].
    split; [|split; [reflexivity|]].
    + rewrite Qabs_zero_iff. split; intro H.
      * assert (Hd : o - b == ((o - b) / Qabs b * 100) * Qabs b / 100)
          by (field; exact Habs).
        rewrite H in Hd.
        setoid_replace o with ((o - b) + b) by ring.
        rewrite Hd. field.
      * rewrite H. field. exact Habs.
    + setoid_replace ((b - (o - b) - b) / Qabs b * 100)
        with (- ((o - b) / Qabs b * 100)) by (field; exact Habs).
      apply Qabs_opp.
Qed.

Lemma metric_card_tie_witness :
  Backtest.isOptimizedBetter true 5 5 = false.
Proof.
  apply (proj1 (metric_card_tie_is_not_better true 5 5)). reflexivity.
Defined.

Lemma metric_card_difference_witness :
  exists d d' : Q,
    Backtest.difference 12 10 = Some d
    /\ 0 <= d
    /\ (d == 0 <-> 12 == 10)
    /\ Backtest.difference (10 - (12 - 10)) 10 = Some d'
    /\ d' == d.
Proof.
  apply (proj2 (metric_card_difference 12 10)). intro H. discriminate H.
Defined.

(** ** Watchlist store *)

Lemma set_has_In (t : string) (s : list string) :
  Watchlist.set_has t s = true <-> In t s.
Proof.
  unfold Watchlist.set_has. rewrite existsb_exists. split.
  - intros (x & Hx & E). apply String.eqb_eq in E. now subst.
  - intro H. exists t. split; [exact H | apply String.eqb_refl].
Qed.

Lemma set_has_add (x t : string) (s : list string) :
  Watchlist.set_has x (Watchlist.set_add t s)
  = (String.eqb x t || Watchlist.set_has x s)%bool.
Proof.
  unfold Watchlist.set_add.
  destruct (Watchlist.set_has t s) eqn:Ht.
  - destruct (String.eqb x t) eqn:E; [|reflexivity].
    apply String.eqb_eq in E. subst. exact Ht.
  - unfold Watchlist.set_has. rewrite existsb_app. cbn.
    rewrite orb_false_r. apply orb_comm.
Qed.

Lemma set_has_delete (x t : string) (s : list string) :
  Watchlist.set_has x (Watchlist.set_delete t s)
  = (negb (String.eqb x t) && Watchlist.set_has x s)%bool.
Proof.
  unfold Watchlist.set_has, Watchlist.set_delete.
  induction s as [|y s IH]; cbn; [now rewrite andb_false_r|].
  destruct (String.eqb t y) eqn:Ety; cbn.
  - apply String.eqb_eq in Ety. subst y. rewrite IH.
    destruct (String.eqb x t); reflexivity.
  - rewrite IH. destruct (String.eqb x y) eqn:Exy; cbn.
    + apply String.eqb_eq in Exy. subst y.
      rewrite String.eqb_sym, Ety. reflexivity.
    + reflexivity.
Qed.

Lemma set_add_NoDup (t : string) (s : list string) :
  NoDup s -> NoDup (Watchlist.set_add t s).
Proof.
  intro H. unfold Watchlist.set_add.
  destruct (Watchlist.set_has t s) eqn:Ht; [exact H|].
  apply NoDup_app; [exact H | repeat constructor; intros [] |].
  intros x Hx [<-|[]]. apply set_has_In in Hx. congruence.
Qed.

Lemma set_delete_NoDup (t : string) (s : list string) :
  NoDup s -> NoDup (Watchlist.set_delete t s).
Proof. intro H. apply NoDup_filter. exact H. Qed.

(** X26: [addToWatchlist] is optimistic.  After a successful request the
    ticker is in the watchlist; after a rejected one it is NOT in the
    watchlist - even if it was there before the call -, the error message
    is set and the error is rethrown.  No other ticker's membership
    changes, and the set stays free of duplicates. *)
Theorem addToWatchlist_membership :
  forall (api_post : string -> string -> outcome unit)
         (st : Watchlist.State) (ticker : string)
         (company_name : option string),
    let st' := fst (Watchlist.addToWatchlist api_post st ticker company_name) in
    let res := snd (Watchlist.addToWatchlist api_post st ticker company_name) in
    match api_post ticker (SSE.or_default company_name ticker) with
    | Returns _ =>
        Watchlist.isInWatchlist st' ticker = true
        /\ res = Returns tt
        /\ Watchlist.error st' = Watchlist.error st
    | Throws e =>
        Watchlist.isInWatchlist st' ticker = false
        /\ res = Throws e
        /\ Watchlist.error st' = Some "Failed to add to watchlist"
    end
    /\ (forall other : string,
          other <> ticker ->
          Watchlist.isInWatchlist st' other = Watchlist.isInWatchlist st other)
    /\ (NoDup (Watchlist.watchlistSet st) ->
        NoDup (Watchlist.watchlistSet st')).
Proof.
  intros api_post st ticker cn st' res. subst st' res.
  unfold Watchlist.addToWatchlist, Watchlist.isInWatchlist.
  destruct (api_post ticker (SSE.or_default cn ticker)) as [u|e];
    cbn [fst snd Watchlist.watchlistSet Watchlist.error].
  - split; [|split].
    + rewrite set_has_add, String.eqb_refl. repeat split.
    + intros other Hne. rewrite set_has_add.
      apply String.eqb_neq in Hne. rewrite Hne. reflexivity.
    + apply set_add_NoDup.
  - split; [|split].
    + rewrite set_has_delete, String.eqb_refl. repeat split.
    + intros other Hne. rewrite set_has_delete, set_has_add.
      apply String.eqb_neq in Hne. rewrite Hne. reflexivity.
    + intro H. apply set_delete_NoDup, set_add_NoDup, H.
Qed.

(** X27: [removeFromWatchlist] is optimistic the other way round.  After a
    successful request the ticker is not in the watchlist; after a rejected
    one it IS in the watchlist - even if it was not there before -, the
    error message is set and the error is rethrown.  No other ticker's
    membership changes, and the set stays free of duplicates. *)
Theorem removeFromWatchlist_membership :
  forall (api_delete : string -> outcome unit)
         (st : Watchlist.State) (ticker : string),
    let st' := fst (Watchlist.removeFromWatchlist api_delete st ticker) in
    let res := snd (Watchlist.removeFromWatchlist api_delete st ticker) in
    match api_delete ("/watchlist/" ++ ticker) with
    | Returns _ =>
        Watchlist.isInWatchlist st' ticker = false
        /\ res = Returns tt
        /\ Watchlist.error st' = Watchlist.error st
    | Throws e =>
        Watchlist.isInWatchlist st' ticker = true
        /\ res = Throws e
        /\ Watchlist.error st' = Some "Failed to remove from watchlist"
    end
    /\ (forall other : string,
          other <> ticker ->
          Watchlist.isInWatchlist st' other = Watchlist.isInWatchlist st other)
    /\ (NoDup (Watchlist.watchlistSet st) ->
        NoDup (Watchlist.watchlistSet st')).
Proof.
  intros api_delete st ticker st' res. subst st' res.
  unfold Watchlist.removeFromWatchlist, Watchlist.isInWatchlist.
  destruct (api_delete ("/watchlist/" ++ ticker)) as [u|e];
    cbn [fst snd Watchlist.watchlistSet Watchlist.error].
  - split; [|split].
    + rewrite set_has_delete, String.eqb_refl. repeat split.
    + intros other Hne. rewrite set_has_delete.
      apply String.eqb_neq in Hne. rewrite Hne. reflexivity.
    + apply set_delete_NoDup.
  - split; [|split].
    + rewrite set_has_add, String.eqb_refl. repeat split.
    + intros other Hne. rewrite set_has_add, set_has_delete.
      apply String.eqb_neq in Hne. rewrite Hne. reflexivity.
    + intro H. apply set_add_NoDup, set_delete_NoDup, H.
Qed.

Lemma set_of_acc (items acc : list string) :
  NoDup acc ->
  NoDup (fold_left (fun s t => Watchlist.set_add t s) items acc)
  /\ forall x,
       Watchlist.set_has x
         (fold_left (fun s t => Watchlist.set_add t s) items acc) = true
       <-> In x items \/ In x acc.
Proof.
  revert acc. induction items as [|t items IH]; intros acc Hacc.
  - cbn [fold_left]. split; [exact Hacc|]. intro x. rewrite set_has_In.
    cbn [In]. tauto.
  - cbn [fold_left].
    destruct (IH (Watchlist.set_add t acc) (set_add_NoDup t acc Hacc))
      as [Hnd Hin].
    split; [exact Hnd|]. intro x. rewrite Hin.
    rewrite <- (set_has_In x (Watchlist.set_add t acc)), set_has_add.
    rewrite orb_true_iff, String.eqb_eq, set_has_In. cbn [In].
    intuition congruence.
Qed.

(** X28: after a successful [fetchWatchlist] a ticker is in the watchlist
    exactly when the response lists it (duplicates in the response collapse),
    and the error is cleared; after a failed one the set is unchanged and
    the error message is set.  [loading] ends false either way. *)
Theorem fetchWatchlist_membership :
  forall (api_get : outcome (list string)) (st : Watchlist.State),
    let st' := Watchlist.fetchWatchlist api_get st in
    Watchlist.loading st' = false
    /\ match api_get with
       | Returns tickers =>
           (forall t : string,
              Watchlist.isInWatchlist st' t = true <-> In t tickers)
           /\ NoDup (Watchlist.watchlistSet st')
           /\ Watchlist.error st' = None
       | Throws _ =>
           Watchlist.watchlistSet st' = Watchlist.watchlistSet st
           /\ Watchlist.error st' = Some "Failed to fetch watchlist"
       end.
Proof.
  intros api_get st st'. subst st'. unfold Watchlist.fetchWatchlist.
  destruct api_get as [tickers|e];
    cbn [Watchlist.loading Watchlist.error Watchlist.watchlistSet];
    [|repeat split].
  destruct (set_of_acc tickers [] (NoDup_nil _)) as [Hnd Hin].
  split; [reflexivity|]. split; [|split; [exact Hnd | reflexivity]].
  intro t. unfold Watchlist.isInWatchlist. cbn [Watchlist.watchlistSet].
  unfold Watchlist.set_of. rewrite Hin. cbn [In]. tauto.
Qed.

Lemma generateColors_witness :
  nth_error (Portfolio.generateColors 20) (1 + 17)
  = nth_error (Portfolio.generateColors 20) 1.
Proof.
  apply (proj2 (proj2 (generateColors_cycles_through_palette 20)) 1%nat).
  lia.
Defined.

Lemma addToWatchlist_witness :
  Watchlist.isInWatchlist
    (fst (Watchlist.addToWatchlist (fun _ _ => Throws "500")
            {| Watchlist.watchlistSet := ["AAPL"; "MSFT"];
               Watchlist.loading := false; Watchlist.error := None |}
            "AAPL" None))
    "MSFT"
  = true.
Proof.
  apply (proj1 (proj2 (addToWatchlist_membership (fun _ _ => Throws "500")
           {| Watchlist.watchlistSet := ["AAPL"; "MSFT"];
              Watchlist.loading := false; Watchlist.error := None |}
           "AAPL" None)) "MSFT").
  discriminate.
Defined.

Lemma removeFromWatchlist_witness :
  Watchlist.isInWatchlist
    (fst (Watchlist.removeFromWatchlist (fun _ => Throws "500")
            {| Watchlist.watchlistSet := ["MSFT"];
               Watchlist.loading := false; Watchlist.error := None |}
            "AAPL"))
    "MSFT"
  = true.
Proof.
  apply (proj1 (proj2 (removeFromWatchlist_membership (fun _ => Throws "500")
           {| Watchlist.watchlistSet := ["MSFT"];
              Watchlist.loading := false; Watchlist.error := None |}
           "AAPL")) "MSFT").
  discriminate.
Defined.
